(** * RS485 command framing and dispatch of the NPP-301 characterizer firmware

    A shallow embedding of [npp301-characterizer.c] (PIC18F16Q41, XC8):
    [find_char], [trim_RS485_command], [interpret_RS485_command] and one
    iteration of the polling loop of [main], together with the C library
    routines they call ([strtok], [atoi], [snprintf]).

    Conventions.
    - [char] is an 8-bit character, modelled as [ascii]; a [char] array is a
      [list ascii]; a pointer into an array is the array together with an
      index of type [Z].
    - [int] is 16 bits on this target.  Indices are modelled as [Z]; every
      index that occurs is bounded by the array length (at most 268), so no
      wrap-around is involved.  Where the source narrows a value
      ([uint8_t], [int8_t], [int16_t], the one-bit latch) the wrap is
      written out.
    - A computation that reads or writes outside an array yields [None]. *)

From Stdlib Require Import String.
From Stdlib Require Import ZArith List Ascii Bool Lia.
Import ListNotations.
Open Scope Z_scope.

(** ** Error monad for faulting computations *)

Notation "x <- e ;; k" :=
  (match e with Some x => k | None => None end)
  (at level 61, e at next level, right associativity).
Notation "' p <- e ;; k" :=
  (match e with Some p => k | None => None end)
  (at level 61, p pattern, e at next level, right associativity).

(** ** Characters and character arrays *)

Definition NUL : ascii := "000"%char.
Definition is_nul (c : ascii) : bool := Ascii.eqb c NUL.

Definition buffer := list ascii.

(** [buf[i]] as an rvalue. *)
Definition load (b : buffer) (i : Z) : option ascii :=
  if i <? 0 then None else nth_error b (Z.to_nat i).

(** The array with element [n] replaced. *)
Definition upd (b : buffer) (n : nat) (c : ascii) : buffer :=
  firstn n b ++ c :: skipn (S n) b.

(** [buf[i] = c]. *)
Definition store (b : buffer) (i : Z) (c : ascii) : option buffer :=
  if (0 <=? i) && (i <? Z.of_nat (length b))
  then Some (upd b (Z.to_nat i) c)
  else None.

(** The array as seen through the pointer [&b[p]]. *)
Definition view (b : buffer) (p : Z) : list ascii := skipn (Z.to_nat p) b.

(** The C string that starts at the head of [l]: the characters before the
    first zero byte.  [None] when the array ends before a zero byte. *)
Fixpoint c_str (l : list ascii) : option (list ascii) :=
  match l with
  | [] => None
  | c :: r => if is_nul c then Some [] else option_map (cons c) (c_str r)
  end.

Definition c_str_at (b : buffer) (p : Z) : option (list ascii) :=
  if p <? 0 then None else c_str (view b p).

Definition chars (s : string) : list ascii := list_ascii_of_string s.
Arguments chars s%_string.

Definition LF : ascii := "010"%char.

(** ** Program constants *)

Definition MYID : ascii := "N"%char.
Definition NBUFA : Z := 80.
Definition NBUFB : Z := 268.

(** ** [find_char] *)

(** The body of [for (int i = start; i <= end; i++)]; [fuel] is the number
    of iterations left, [end - i + 1]. *)
Fixpoint find_char_loop (fuel : nat) (buf : buffer) (i : Z) (c : ascii)
  : option Z :=
  match fuel with
  | O => Some (-1)
  | S fuel' =>
      x <- load buf i ;;
      if is_nul x then Some (-1)
      else if Ascii.eqb x c then Some i
      else find_char_loop fuel' buf (i + 1) c
  end.

Definition find_char (buf : buffer) (start end_ : Z) (c : ascii) : option Z :=
  find_char_loop (Z.to_nat (end_ - start + 1)) buf start c.

(** ** [trim_RS485_command]

    The result is the buffer as the function leaves it and the index of the
    returned pointer in it. *)
Definition trim_RS485_command (buf : buffer) (nbytes : Z)
  : option (buffer * Z) :=
  start <- find_char buf 0 (nbytes - 1) "/" ;;
  if start =? -1 then
    buf' <- store buf 0 NUL ;; Some (buf', 0)
  else
    end_ <- find_char buf start (nbytes - 1) "!" ;;
    if end_ =? -1 then
      buf' <- store buf 0 NUL ;; Some (buf', 0)
    else
      t <- load buf (start + 1) ;;
      if negb (Ascii.eqb t MYID) then
        buf' <- store buf 0 NUL ;; Some (buf', 0)
      else
        buf' <- store buf end_ NUL ;; Some (buf', start + 2).

(** ** The Frame Extractor as the specification words it *)

(** The bytes before the first zero byte (all of them when there is none). *)
Fixpoint until_nul (l : list ascii) : list ascii :=
  match l with
  | [] => []
  | c :: r => if is_nul c then [] else c :: until_nul r
  end.

(** Index of the first occurrence of [c]. *)
Fixpoint index_of (c : ascii) (l : list ascii) : option nat :=
  match l with
  | [] => None
  | x :: r => if Ascii.eqb x c then Some O else option_map S (index_of c r)
  end.

(** Steps 1 to 4 of the specification, on the first [n] bytes of [buf], a
    zero byte ending the buffer early. *)
Definition spec_extract (buf : list ascii) (n : nat) : option (list ascii) :=
  let valid := until_nul (firstn n buf) in
  match index_of "/" valid with
  | None => None
  | Some s =>
      match index_of "!" (skipn s valid) with
      | None => None
      | Some k =>
          match nth_error valid (S s) with
          | Some target_id =>
              if Ascii.eqb target_id MYID
              then Some (firstn (k - 2) (skipn (s + 2) valid))
              else None
          | None => None
          end
      end
  end.

(** ** C library routines used by the interpreter

    [strspn], [strcspn], [strtok], [atoi] and [snprintf] belong to the C
    library, not to the firmware; they are written here after their
    description in the C standard, on arrays and with faults made
    explicit. *)

Definition mem_char (c : ascii) (set : list ascii) : bool :=
  existsb (Ascii.eqb c) set.
Arguments mem_char : simpl never.

(** [strspn(s, accept)]: length of the initial segment of the C string [l]
    made of characters of [accept]. *)
Fixpoint strspn (l : list ascii) (accept : list ascii) : option Z :=
  match l with
  | [] => None
  | c :: r =>
      if is_nul c then Some 0
      else if mem_char c accept then option_map Z.succ (strspn r accept)
      else Some 0
  end.

(** [strcspn(s, reject)]: length of the initial segment free of characters
    of [reject]. *)
Fixpoint strcspn (l : list ascii) (reject : list ascii) : option Z :=
  match l with
  | [] => None
  | c :: r =>
      if is_nul c then Some 0
      else if mem_char c reject then Some 0
      else option_map Z.succ (strcspn r reject)
  end.

(** [strtok(s, sep)] on the array [b]; [s = None] is the null pointer and
    [save] is the routine's static position.  The result is the array (a
    zero byte may have been written after the token), the returned pointer
    and the new static position. *)
Definition strtok (b : buffer) (s : option Z) (save : option Z)
  (sep : list ascii) : option (buffer * option Z * option Z) :=
  match (match s with Some p => Some p | None => save end) with
  | None => Some (b, None, None)
  | Some p =>
      if p <? 0 then None else
      n <- strspn (view b p) sep ;;
      let t := p + n in
      c <- load b t ;;
      if is_nul c then Some (b, None, None)
      else
        k <- strcspn (view b t) sep ;;
        let e := t + k in
        c' <- load b e ;;
        if is_nul c' then Some (b, Some t, None)
        else b' <- store b e NUL ;; Some (b', Some t, Some (e + 1))
  end.

Definition isspace (c : ascii) : bool :=
  let n := Z.of_N (N_of_ascii c) in (n =? 32) || ((9 <=? n) && (n <=? 13)).

Definition isdigit (c : ascii) : bool :=
  let n := Z.of_N (N_of_ascii c) in (48 <=? n) && (n <=? 57).

Definition digit_val (c : ascii) : Z := Z.of_N (N_of_ascii c) - 48.

Fixpoint skip_space (l : list ascii) : list ascii :=
  match l with
  | c :: r => if isspace c then skip_space r else l
  | [] => []
  end.

Fixpoint atoi_digits (l : list ascii) (acc : Z) : Z :=
  match l with
  | c :: r => if isdigit c then atoi_digits r (10 * acc + digit_val c) else acc
  | [] => acc
  end.

(** Two's-complement wrap to [bits] bits. *)
Definition wrap_signed (bits : Z) (z : Z) : Z :=
  (z + 2 ^ (bits - 1)) mod 2 ^ bits - 2 ^ (bits - 1).
Definition wrap_unsigned (bits : Z) (z : Z) : Z := z mod 2 ^ bits.
Arguments wrap_signed : simpl never.
Arguments wrap_unsigned : simpl never.

(** [atoi] on a C string: optional white space, optional sign, decimal
    digits; the value is an [int] (16 bits here).  For a number outside
    the range of [int] the standard leaves the result open; it is wrapped
    here, and the properties below only use that the result is an [int]. *)
Definition atoi (s : list ascii) : Z :=
  match skip_space s with
  | c :: r =>
      if Ascii.eqb c "-" then wrap_signed 16 (- atoi_digits r 0)
      else if Ascii.eqb c "+" then wrap_signed 16 (atoi_digits r 0)
      else wrap_signed 16 (atoi_digits (c :: r) 0)
  | [] => 0
  end.

Definition atoi_at (b : buffer) (p : Z) : option Z :=
  s <- c_str_at b p ;; Some (atoi s).

(** Decimal conversion as done by [%u] and [%d]. *)
Definition digit_char (d : Z) : ascii := ascii_of_N (Z.to_N (48 + d)).

Fixpoint dec_digits (fuel : nat) (n : Z) (acc : list ascii) : list ascii :=
  match fuel with
  | O => acc
  | S fuel' =>
      let acc' := digit_char (n mod 10) :: acc in
      if n / 10 =? 0 then acc' else dec_digits fuel' (n / 10) acc'
  end.

Definition fmt_u (n : Z) : list ascii :=
  dec_digits (S (Z.to_nat (Z.log2 n))) n [].

Definition fmt_d (n : Z) : list ascii :=
  if n <? 0 then "-"%char :: fmt_u (- n) else fmt_u n.

(** [snprintf(b, n, ...)] where [text] is the fully formatted output: at
    most [n - 1] characters of it are stored, followed by a zero byte.  The
    returned count is the length of the whole of [text]. *)
Definition snprintf (b : buffer) (n : Z) (text : list ascii)
  : option (buffer * Z) :=
  if n <=? 0 then Some (b, Z.of_nat (length text))
  else
    let out := firstn (Z.to_nat (n - 1)) text ++ [NUL] in
    if (length out <=? length b)%nat
    then Some (out ++ skipn (length out) b, Z.of_nat (length text))
    else None.

(** ** Device state *)

(** The registers written by [set_VREF_on] and [set_VREF_off]. *)
Record vref_regs := {
  DAC1CON_PSS : Z; DAC1CON_NSS : Z; DAC1CON_EN : Z; DAC1DATL : Z;
  OPA1CON2_PCH : Z; OPA1CON0_UG : Z; OPA1CON0_CPON : Z; OPA1CON0_SOC : Z;
  OPA1CON0_EN : Z
}.

(** Calls that matter to the bus master or to the analog side, in the order
    in which they happen. *)
Inductive call :=
| Call_uart1_putstr (s : list ascii)
| Call_set_VREF_on (level : Z)
| Call_set_VREF_off
| Call_ADC_read (ain : Z).

Record state := {
  bufA : buffer;                 (* char bufA[NBUFA] *)
  bufB : buffer;                 (* char bufB[NBUFB] *)
  GREENLED : Z;                  (* LATCbits.LATC4 *)
  override_led : Z;              (* uint8_t override_led *)
  strtok_save : option Z;        (* static position of strtok, in bufA *)
  vref : vref_regs;
  ADPCH : Z;
  ADRES_feed : nat -> Z;         (* what the k-th conversion delivers *)
  conversions : nat;             (* conversions done so far *)
  calls : list call
}.

Definition set_bufA (st : state) (v : buffer) : state :=
  {| bufA := v; bufB := bufB st; GREENLED := GREENLED st;
     override_led := override_led st; strtok_save := strtok_save st;
     vref := vref st; ADPCH := ADPCH st; ADRES_feed := ADRES_feed st;
     conversions := conversions st; calls := calls st |}.
Definition set_bufB (st : state) (v : buffer) : state :=
  {| bufA := bufA st; bufB := v; GREENLED := GREENLED st;
     override_led := override_led st; strtok_save := strtok_save st;
     vref := vref st; ADPCH := ADPCH st; ADRES_feed := ADRES_feed st;
     conversions := conversions st; calls := calls st |}.
(** The latch is one bit wide. *)
Definition set_GREENLED (st : state) (v : Z) : state :=
  {| bufA := bufA st; bufB := bufB st; GREENLED := wrap_unsigned 1 v;
     override_led := override_led st; strtok_save := strtok_save st;
     vref := vref st; ADPCH := ADPCH st; ADRES_feed := ADRES_feed st;
     conversions := conversions st; calls := calls st |}.
Definition set_override_led (st : state) (v : Z) : state :=
  {| bufA := bufA st; bufB := bufB st; GREENLED := GREENLED st;
     override_led := wrap_unsigned 8 v; strtok_save := strtok_save st;
     vref := vref st; ADPCH := ADPCH st; ADRES_feed := ADRES_feed st;
     conversions := conversions st; calls := calls st |}.
Definition set_strtok_save (st : state) (v : option Z) : state :=
  {| bufA := bufA st; bufB := bufB st; GREENLED := GREENLED st;
     override_led := override_led st; strtok_save := v;
     vref := vref st; ADPCH := ADPCH st; ADRES_feed := ADRES_feed st;
     conversions := conversions st; calls := calls st |}.
Definition set_vref (st : state) (v : vref_regs) : state :=
  {| bufA := bufA st; bufB := bufB st; GREENLED := GREENLED st;
     override_led := override_led st; strtok_save := strtok_save st;
     vref := v; ADPCH := ADPCH st; ADRES_feed := ADRES_feed st;
     conversions := conversions st; calls := calls st |}.
Definition set_ADPCH (st : state) (v : Z) : state :=
  {| bufA := bufA st; bufB := bufB st; GREENLED := GREENLED st;
     override_led := override_led st; strtok_save := strtok_save st;
     vref := vref st; ADPCH := wrap_unsigned 8 v; ADRES_feed := ADRES_feed st;
     conversions := conversions st; calls := calls st |}.
Definition next_conversion (st : state) : state :=
  {| bufA := bufA st; bufB := bufB st; GREENLED := GREENLED st;
     override_led := override_led st; strtok_save := strtok_save st;
     vref := vref st; ADPCH := ADPCH st; ADRES_feed := ADRES_feed st;
     conversions := S (conversions st); calls := calls st |}.
Definition log_call (st : state) (c : call) : state :=
  {| bufA := bufA st; bufB := bufB st; GREENLED := GREENLED st;
     override_led := override_led st; strtok_save := strtok_save st;
     vref := vref st; ADPCH := ADPCH st; ADRES_feed := ADRES_feed st;
     conversions := conversions st; calls := calls st ++ [c] |}.


(** ** Peripheral routines *)

Definition set_VREF_on (st : state) (level : Z) : state :=
  log_call
    (set_vref st
       {| DAC1CON_PSS := 2; DAC1CON_NSS := 0; DAC1CON_EN := 1;
          DAC1DATL := level;
          OPA1CON2_PCH := 4; OPA1CON0_UG := 1; OPA1CON0_CPON := 1;
          OPA1CON0_SOC := 0; OPA1CON0_EN := 1 |})
    (Call_set_VREF_on level).

Definition set_VREF_off (st : state) : state :=
  let r := vref st in
  log_call
    (set_vref st
       {| DAC1CON_PSS := DAC1CON_PSS r; DAC1CON_NSS := DAC1CON_NSS r;
          DAC1CON_EN := 0; DAC1DATL := DAC1DATL r;
          OPA1CON2_PCH := OPA1CON2_PCH r; OPA1CON0_UG := OPA1CON0_UG r;
          OPA1CON0_CPON := OPA1CON0_CPON r; OPA1CON0_SOC := OPA1CON0_SOC r;
          OPA1CON0_EN := 0 |})
    Call_set_VREF_off.

Definition MY_ANC2 : Z := 18. (* 0b00010010 *)
Definition MY_ANC7 : Z := 23. (* 0b00010111 *)
Definition MY_ANB5 : Z := 13. (* 0b00001101 *)
Definition MY_ANB6 : Z := 14. (* 0b00001110 *)
Definition MY_ANB7 : Z := 15. (* 0b00001111 *)

(** [ADC_read]: select the channel, start the conversion, wait for it and
    return [ADRES].  The converter is taken to finish every conversion. *)
Definition ADC_read (st : state) (ain : Z) : state * Z :=
  let st := set_ADPCH st ain in
  let res := wrap_unsigned 16 (ADRES_feed st (conversions st)) in
  (log_call (next_conversion st) (Call_ADC_read ain), res).

(** Modelled from the spec: [uart1_putstr] is declared in [uart.h] and its
    body is not among the sources.  The specification calls it the
    transport's write, which is handed the bytes of the reply; here the C
    string found at [str] is sent, which is recorded in [calls], and nothing
    else changes. *)
Definition uart1_putstr (st : state) (str : buffer) : option state :=
  s <- c_str str ;; Some (log_call st (Call_uart1_putstr s)).

(** ** [interpret_RS485_command] *)

Definition VERSION_STR : list ascii :=
  chars "0.1 PIC18F16Q41 NPP-301 Characterizer".

Definition sep_tok : list ascii := chars ", ".

(** [nchar = snprintf(bufB, NBUFB, ...)]; [nchar] is not used afterwards. *)
Definition snprintf_bufB (st : state) (text : list ascii) : option state :=
  '(b, nchar) <- snprintf (bufB st) NBUFB text ;; Some (set_bufB st b).

(** [token_ptr = strtok(s, sep_tok)] on [bufA]. *)
Definition strtok_bufA (st : state) (s : option Z) : option (state * option Z) :=
  '(b, token_ptr, save) <- strtok (bufA st) s (strtok_save st) sep_tok ;;
  Some (set_strtok_save (set_bufA st b) save, token_ptr).

Definition case_v (st : state) : option state :=
  st <- snprintf_bufB st (chars "/0v " ++ VERSION_STR ++ chars "#" ++ [LF]) ;;
  uart1_putstr st (bufB st).

Definition case_L (st : state) (cmdStr : Z) : option state :=
  '(st, token_ptr) <- strtok_bufA st (Some (cmdStr + 1)) ;;
  st <- match token_ptr with
        | Some tp =>
            n <- atoi_at (bufA st) tp ;;
            let i := wrap_unsigned 8 (Z.land n 1) in
            let st := set_GREENLED st i in
            let st := set_override_led st i in
            snprintf_bufB st (chars "/0L " ++ fmt_d i ++ chars "#" ++ [LF])
        | None =>
            snprintf_bufB st (chars "/0L error: no value#" ++ [LF])
        end ;;
  uart1_putstr st (bufB st).

Definition case_a (st : state) : option state :=
  let '(st, pin8_npp301) := ADC_read st MY_ANC2 in
  let '(st, pin2_npp301) := ADC_read st MY_ANC7 in
  let '(st, pin4_npp301) := ADC_read st MY_ANB7 in
  let '(st, pin5_npp301) := ADC_read st MY_ANB6 in
  let '(st, pin6_npp301) := ADC_read st MY_ANB5 in
  st <- snprintf_bufB st
          (chars "/0a " ++ fmt_u pin8_npp301 ++ chars " " ++
           fmt_u pin2_npp301 ++ chars " " ++ fmt_u pin4_npp301 ++ chars " " ++
           fmt_u pin5_npp301 ++ chars " " ++ fmt_u pin6_npp301 ++
           chars "#" ++ [LF]) ;;
  uart1_putstr st (bufB st).

Definition case_w (st : state) (cmdStr : Z) : option state :=
  '(st, token_ptr) <- strtok_bufA st (Some (cmdStr + 1)) ;;
  st <- match token_ptr with
        | Some tp =>
            n <- atoi_at (bufA st) tp ;;
            let level := wrap_signed 16 n in
            '(st, token_ptr2) <- strtok_bufA st None ;;
            onOffFlag <- match token_ptr2 with
                         | Some tp2 =>
                             n2 <- atoi_at (bufA st) tp2 ;;
                             Some (wrap_signed 8 n2)
                         | None => Some 1
                         end ;;
            if negb (onOffFlag =? 0) then
              let level := if level >? 255 then 255 else level in
              let level := if level <? 0 then 0 else level in
              let st := set_VREF_on st (wrap_unsigned 8 level) in
              snprintf_bufB st
                (chars "/0w VREF on level=" ++ fmt_d level ++ chars "#" ++ [LF])
            else
              let st := set_VREF_off st in
              snprintf_bufB st (chars "/0w VREF off#" ++ [LF])
        | None =>
            snprintf_bufB st
              (chars "/0w error: missing level and on/off flag#" ++ [LF])
        end ;;
  uart1_putstr st (bufB st).

Definition case_default (st : state) (c0 : ascii) : option state :=
  st <- snprintf_bufB st
          (chars "/0" ++ [c0] ++ chars " error: Unknown command#" ++ [LF]) ;;
  uart1_putstr st (bufB st).

(** [if (!override_led) GREENLED = v;] *)
Definition activity_led (st : state) (v : Z) : state :=
  if override_led st =? 0 then set_GREENLED st v else st.

(** [switch (cmdStr[0])] *)
Definition dispatch (st : state) (cmdStr : Z) (c0 : ascii) : option state :=
  if Ascii.eqb c0 "v" then case_v st
  else if Ascii.eqb c0 "L" then case_L st cmdStr
  else if Ascii.eqb c0 "a" then case_a st
  else if Ascii.eqb c0 "w" then case_w st cmdStr
  else case_default st c0.

Definition interpret_RS485_command (st : state) (cmdStr : Z) : option state :=
  let st := activity_led st 1 in
  c0 <- load (bufA st) cmdStr ;;
  st <- dispatch st cmdStr c0 ;;
  Some (activity_led st 0).

(** ** The polling loop of [main] *)

(** One pass through the body of [while (1)].  [uart1_getstr] is declared
    in [uart.h] and its body is not among the sources: the value [m] it
    returned and the contents [line] it left in [bufA] are taken as given. *)
Definition poll_iteration (st : state) (m : Z) (line : buffer) : option state :=
  let st := set_bufA st line in
  if m >? 0 then
    '(buf', cmd) <- trim_RS485_command (bufA st) NBUFA ;;
    let st := set_bufA st buf' in
    c <- load (bufA st) cmd ;;
    if negb (is_nul c) then interpret_RS485_command st cmd else Some st
  else Some st.

(** The loop over the lines received so far. *)
Fixpoint poll_loop (st : state) (rx : list (Z * buffer)) : option state :=
  match rx with
  | [] => Some st
  | (m, line) :: rx' =>
      st' <- poll_iteration st m line ;; poll_loop st' rx'
  end.

(** The replies sent so far: the strings handed to [uart1_putstr]. *)
Fixpoint replies (cs : list call) : list (list ascii) :=
  match cs with
  | [] => []
  | Call_uart1_putstr s :: r => s :: replies r
  | _ :: r => replies r
  end.

(** The state when the loop is entered: the globals are zero, [init_pins]
    and the start-up flashes leave the LED off. *)
Definition reset_state (feed : nat -> Z) : state :=
  {| bufA := repeat NUL (Z.to_nat NBUFA);
     bufB := repeat NUL (Z.to_nat NBUFB);
     GREENLED := 0; override_led := 0; strtok_save := None;
     vref := {| DAC1CON_PSS := 0; DAC1CON_NSS := 0; DAC1CON_EN := 0;
                DAC1DATL := 0; OPA1CON2_PCH := 0; OPA1CON0_UG := 0;
                OPA1CON0_CPON := 0; OPA1CON0_SOC := 0; OPA1CON0_EN := 0 |};
     ADPCH := MY_ANC2; ADRES_feed := feed; conversions := 0; calls := [] |}.

(** A received line, padded with zero bytes to the size of [bufA]. *)
Definition line_buffer (s : list ascii) : buffer :=
  s ++ repeat NUL (Z.to_nat NBUFA - length s).

(** ** Vocabulary of the claims *)

(** Argument tokens of a payload tail, as the specification describes
    them: text split on the separators comma and space. *)
Fixpoint skip_seps (l : list ascii) : list ascii :=
  match l with
  | c :: r => if mem_char c sep_tok then skip_seps r else l
  | [] => []
  end.

Fixpoint take_tok (l : list ascii) : list ascii :=
  match l with
  | c :: r => if mem_char c sep_tok then [] else c :: take_tok r
  | [] => []
  end.

(** What follows the first token and the separator that ends it. *)
Fixpoint drop_tok (l : list ascii) : list ascii :=
  match l with
  | c :: r => if mem_char c sep_tok then r else drop_tok r
  | [] => []
  end.

Definition first_token (l : list ascii) : option (list ascii) :=
  match skip_seps l with
  | [] => None
  | t => Some (take_tok t)
  end.

Definition second_token (l : list ascii) : option (list ascii) :=
  first_token (drop_tok (skip_seps l)).

(** A token that does not begin with a decimal number: after optional
    white space and an optional sign there is no digit. *)
Definition non_numeric (tok : list ascii) : bool :=
  match skip_space tok with
  | [] => true
  | c :: r =>
      if Ascii.eqb c "-" || Ascii.eqb c "+"
      then match r with [] => true | d :: _ => negb (isdigit d) end
      else negb (isdigit c)
  end.

Definition clamp (lo hi z : Z) : Z :=
  if z >? hi then hi else if z <? lo then lo else z.

Fixpoint is_prefix (p l : list ascii) : bool :=
  match p, l with
  | [], _ => true
  | x :: p', y :: l' => Ascii.eqb x y && is_prefix p' l'
  | _ :: _, [] => false
  end.

(** [needle] occurs in [hay] as a substring. *)
Fixpoint contains (needle hay : list ascii) : bool :=
  is_prefix needle hay ||
  match hay with
  | [] => false
  | _ :: r => contains needle r
  end.

(** A reply with the outbound framing: ["/0"] first, ['#'] and the line
    terminator last. *)
Definition framed (reply : list ascii) : Prop :=
  exists body, reply = chars "/0" ++ body ++ chars "#" ++ [LF].

(** The wire frame for payload [a] sent to this node. *)
Definition encode (a : list ascii) : list ascii :=
  "/"%char :: MYID :: a ++ ["!"%char].

(** [NUL] does not occur in [s]. *)
Definition nul_free (s : list ascii) : Prop := Forall (fun c => c <> NUL) s.

(** The array [b] holds the C string [s] at index [p]. *)
Definition cstr_at (b : buffer) (p : nat) (s : list ascii) : Prop :=
  exists pre post, b = pre ++ s ++ NUL :: post /\ length pre = p /\ nul_free s.

(** What a call of [uart1_putstr(bufB)] sends after [text] was formatted
    into [bufB]. *)
Definition sent (text : list ascii) : list ascii :=
  until_nul (firstn (Z.to_nat (NBUFB - 1)) text).

(** [bufB] after [text] was formatted into it. *)
Definition bufB_after (text : list ascii) (b : buffer) : buffer :=
  (firstn (Z.to_nat (NBUFB - 1)) text ++ [NUL]) ++
  skipn (length (firstn (Z.to_nat (NBUFB - 1)) text ++ [NUL])) b.

Definition nul_freeb (s : list ascii) : bool :=
  forallb (fun c => negb (is_nul c)) s.

(** The texts the interpreter formats, by case. *)
Definition text_v : list ascii :=
  chars "/0v " ++ VERSION_STR ++ chars "#" ++ [LF].
Definition text_L (i : Z) : list ascii :=
  chars "/0L " ++ fmt_d i ++ chars "#" ++ [LF].
Definition text_L_error : list ascii := chars "/0L error: no value#" ++ [LF].
Definition text_a (p8 p2 p4 p5 p6 : Z) : list ascii :=
  chars "/0a " ++ fmt_u p8 ++ chars " " ++ fmt_u p2 ++ chars " " ++
  fmt_u p4 ++ chars " " ++ fmt_u p5 ++ chars " " ++ fmt_u p6 ++
  chars "#" ++ [LF].
Definition text_w_on (level : Z) : list ascii :=
  chars "/0w VREF on level=" ++ fmt_d level ++ chars "#" ++ [LF].
Definition text_w_off : list ascii := chars "/0w VREF off#" ++ [LF].
Definition text_w_error : list ascii :=
  chars "/0w error: missing level and on/off flag#" ++ [LF].
Definition text_default (c0 : ascii) : list ascii :=
  chars "/0" ++ [c0] ++ chars " error: Unknown command#" ++ [LF].

(** The on/off flag of a ['w'] command as the interpreter computes it from
    the payload tail: 1 without a second token, else the second token
    converted and narrowed to [int8_t]. *)
Definition onOffFlag_of (tail : list ascii) : Z :=
  match second_token tail with
  | Some t2 => wrap_signed 8 (atoi t2)
  | None => 1
  end.

(** What a step did to the state [st]: the calls it made, the LED, the
    override flag and the reference registers it leaves, the buffers
    keeping their sizes. *)
Definition post (st st' : state) (cs : list call) (led ovr : Z)
  (v : vref_regs) : Prop :=
  calls st' = calls st ++ cs /\
  GREENLED st' = led /\
  override_led st' = ovr /\
  vref st' = v /\
  length (bufA st') = length (bufA st) /\
  length (bufB st') = length (bufB st).

Ltac st_simpl :=
  cbn [bufA bufB GREENLED override_led strtok_save vref ADPCH ADRES_feed
       conversions calls set_bufA set_bufB set_GREENLED set_override_led
       set_strtok_save set_vref set_ADPCH next_conversion log_call
       set_VREF_on set_VREF_off].

(** The LED follows the override flag. *)
Definition led_inv (st : state) : Prop := GREENLED st = override_led st.

(** The line received: the bytes [uart1_getstr] left in the buffer, up to
    the terminating zero byte. *)
Definition rx_line (buf : buffer) : list ascii := until_nul buf.

(** [l] ends with [suffix]. *)
Definition ends_with (suffix l : list ascii) : bool :=
  is_prefix (rev suffix) (rev l).

(** The outbound framing, as a test: ["/0"] first, ["#\n"] last. *)
Definition framedb (reply : list ascii) : bool :=
  is_prefix (chars "/0") reply && ends_with (chars "#" ++ [LF]) reply.

(** The byte after the first ['/'] of the received line. *)
Definition target_id (buf : buffer) : option ascii :=
  match index_of "/" (rx_line buf) with
  | Some s => nth_error (rx_line buf) (S s)
  | None => None
  end.

(** A token that is a number as written: an optional sign, then decimal
    digits and nothing else. *)
Definition all_digits (l : list ascii) : bool :=
  match l with
  | [] => false
  | _ :: _ => forallb isdigit l
  end.

Definition is_number (tok : list ascii) : bool :=
  match tok with
  | [] => false
  | c :: r =>
      if Ascii.eqb c "-" || Ascii.eqb c "+" then all_digits r
      else all_digits tok
  end.

(** What the node answers to the line [s], from the state [st]: the replies
    sent and the LED afterwards. *)
Definition answer (st : state) (s : list ascii)
  : option (list (list ascii) * Z) :=
  option_map (fun st' => (skipn (length (replies (calls st)))
                            (replies (calls st')), GREENLED st'))
    (poll_iteration st (Z.of_nat (length s)) (line_buffer s)).

(** A received line that the loop body answers: reported with a positive
    count and holding a frame for this node with a payload. *)
Definition answerable (r : Z * buffer) : bool :=
  (fst r >? 0) &&
  match spec_extract (snd r) 80 with
  | Some (_ :: _) => true
  | _ => false
  end.

(** A reply that reports a failure, as the interpreter decides it: the
    command character is unknown, or it is ['L'] or ['w'] and no argument
    follows. *)
Definition is_failure (c : ascii) (tail : list ascii) : bool :=
  negb (mem_char c (chars "vLaw")) ||
  ((Ascii.eqb c "L" || Ascii.eqb c "w") &&
   match first_token tail with None => true | Some _ => false end).

(** * Properties *)

(** ** The scenarios of the specification *)

Example trim_frame :
  trim_RS485_command (chars "/NL1!") 5 = Some (chars "/NL1" ++ [NUL], 2).
Proof. reflexivity. Qed.

Example trim_foreign :
  trim_RS485_command (chars "/Xv!") 4 = Some (NUL :: chars "Xv!", 0).
Proof. reflexivity. Qed.

Example spec_extract_frame :
  spec_extract (chars "ab/NL1!zz") 9 = Some (chars "L1").
Proof. reflexivity. Qed.

Example spec_extract_empty_payload : spec_extract (chars "/N!") 3 = Some [].
Proof. reflexivity. Qed.

Example scenario_1 :
  answer (reset_state (fun _ => 0)) (chars "/Nv!") =
  Some ([chars "/0v 0.1 PIC18F16Q41 NPP-301 Characterizer#" ++ [LF]], 0).
Proof. reflexivity. Qed.

Example scenario_2 :
  answer (reset_state (fun _ => 0)) (chars "/NL1!") =
  Some ([chars "/0L 1#" ++ [LF]], 1).
Proof. reflexivity. Qed.

Example scenario_3 :
  answer (reset_state (fun _ => 0)) (chars "/NL!") =
  Some ([chars "/0L error: no value#" ++ [LF]], 0).
Proof. reflexivity. Qed.

Example scenario_4 :
  answer (reset_state (fun _ => 0)) (chars "/Xv!") = Some ([], 0).
Proof. reflexivity. Qed.

Example scenario_5 :
  answer (reset_state (fun _ => 0)) (chars "garbage no delimiters") =
  Some ([], 0).
Proof. reflexivity. Qed.

Example scenario_6 :
  answer (reset_state (fun _ => 0)) (chars "/Nz!") =
  Some ([chars "/0z error: Unknown command#" ++ [LF]], 0).
Proof. reflexivity. Qed.

Example sample_reply :
  answer (reset_state (fun k => 1000 + Z.of_nat k)) (chars "/Na!") =
  Some ([chars "/0a 1000 1001 1002 1003 1004#" ++ [LF]], 0).
Proof. reflexivity. Qed.

Example level_above_range :
  answer (reset_state (fun _ => 0)) (chars "/Nw 300!") =
  Some ([chars "/0w VREF on level=255#" ++ [LF]], 0).
Proof. reflexivity. Qed.

Example level_below_range :
  answer (reset_state (fun _ => 0)) (chars "/Nw -5, 1!") =
  Some ([chars "/0w VREF on level=0#" ++ [LF]], 0).
Proof. reflexivity. Qed.

Example reference_off :
  answer (reset_state (fun _ => 0)) (chars "/Nw 100 0!") =
  Some ([chars "/0w VREF off#" ++ [LF]], 0).
Proof. reflexivity. Qed.

Example leading_number_is_used :
  answer (reset_state (fun _ => 0)) (chars "/NL 1x!") =
  Some ([chars "/0L 1#" ++ [LF]], 1).
Proof. reflexivity. Qed.

(** ** Arrays and C strings *)

Section Arrays.

Implicit Types (l s pre post : list ascii) (b : buffer) (c x : ascii).

Lemma is_nul_true c : is_nul c = true <-> c = NUL.
Proof. unfold is_nul. apply Ascii.eqb_eq. Qed.

Lemma is_nul_false c : is_nul c = false <-> c <> NUL.
Proof. unfold is_nul. apply Ascii.eqb_neq. Qed.

Lemma load_of_nat b (i : nat) : load b (Z.of_nat i) = nth_error b i.
Proof.
  unfold load. destruct (Z.ltb_spec (Z.of_nat i) 0); [lia|].
  now rewrite Nat2Z.id.
Qed.

Lemma skipn_nth_error l : forall i x,
  nth_error l i = Some x -> skipn i l = x :: skipn (S i) l.
Proof.
  induction l as [|y l IH]; intros [|i] x H; simpl in *; try discriminate.
  - now inversion H.
  - now apply IH.
Qed.

Lemma nth_error_in_range l (i : nat) :
  (i < length l)%nat -> exists x, nth_error l i = Some x.
Proof.
  intros H. destruct (nth_error l i) eqn:E; [eauto|].
  apply nth_error_None in E. lia.
Qed.

Lemma store_in_range b (i : nat) c :
  (i < length b)%nat -> store b (Z.of_nat i) c = Some (upd b i c).
Proof.
  intros H. unfold store.
  destruct (Z.leb_spec 0 (Z.of_nat i)); [|lia].
  destruct (Z.ltb_spec (Z.of_nat i) (Z.of_nat (length b))); [|lia].
  simpl. now rewrite Nat2Z.id.
Qed.

Lemma length_upd b (i : nat) c :
  (i < length b)%nat -> length (upd b i c) = length b.
Proof.
  intros H. unfold upd.
  rewrite length_app, length_firstn.
  change (length (c :: skipn (S i) b)) with (S (length (skipn (S i) b))).
  rewrite length_skipn. lia.
Qed.

Lemma c_str_app s post : nul_free s -> c_str (s ++ NUL :: post) = Some s.
Proof.
  induction 1 as [|c s Hc _ IH]; simpl.
  - reflexivity.
  - apply is_nul_false in Hc. now rewrite Hc, IH.
Qed.

Lemma c_str_inv l : forall s,
  c_str l = Some s -> nul_free s /\ exists post, l = s ++ NUL :: post.
Proof.
  induction l as [|c l IH]; simpl; intros s H; [discriminate|].
  destruct (is_nul c) eqn:E.
  - inversion H; subst. apply is_nul_true in E; subst.
    split; [constructor | now exists l].
  - destruct (c_str l) as [s'|]; [|discriminate].
    inversion H; subst. destruct (IH s' eq_refl) as [Hs [post ->]].
    split; [constructor; [now apply is_nul_false | exact Hs] | now exists post].
Qed.

Lemma until_nul_free l : nul_free (until_nul l).
Proof.
  induction l as [|c l IH]; simpl; [constructor|].
  destruct (is_nul c) eqn:E; constructor; [now apply is_nul_false | exact IH].
Qed.

Lemma until_nul_app s l : nul_free s -> until_nul (s ++ l) = s ++ until_nul l.
Proof.
  induction 1 as [|c s Hc _ IH]; simpl; [reflexivity|].
  apply is_nul_false in Hc. now rewrite Hc, IH.
Qed.

Lemma until_nul_id s : nul_free s -> until_nul s = s.
Proof.
  intros H. rewrite <- (app_nil_r s) at 1.
  rewrite until_nul_app by exact H. simpl. apply app_nil_r.
Qed.

(** A list is its zero-free prefix followed by a remainder. *)
Lemma until_nul_prefix l : exists rest, l = until_nul l ++ rest.
Proof.
  induction l as [|c l [rest IH]]; simpl; [now exists []|].
  destruct (is_nul c); [now exists (c :: l)|].
  exists rest. simpl. now rewrite <- IH.
Qed.

Lemma until_nul_skipn l : forall n,
  (n <= length (until_nul l))%nat ->
  until_nul (skipn n l) = skipn n (until_nul l).
Proof.
  induction l as [|c l IH]; intros [|n] H; simpl in *; try reflexivity.
  destruct (is_nul c); simpl in *; [lia|]. apply IH. lia.
Qed.

Lemma nul_free_firstn n s : nul_free s -> nul_free (firstn n s).
Proof.
  intros H. unfold nul_free in *.
  rewrite <- (firstn_skipn n s) in H. now apply Forall_app in H.
Qed.

Lemma nul_free_skipn n s : nul_free s -> nul_free (skipn n s).
Proof.
  intros H. unfold nul_free in *.
  rewrite <- (firstn_skipn n s) in H. now apply Forall_app in H.
Qed.

Lemma index_of_Some c l : forall k,
  index_of c l = Some k ->
  nth_error l k = Some c /\ (k < length l)%nat.
Proof.
  induction l as [|x l IH]; simpl; intros k H; [discriminate|].
  destruct (Ascii.eqb x c) eqn:E.
  - inversion H; subst. apply Ascii.eqb_eq in E. subst. simpl. split; [easy|lia].
  - destruct (index_of c l) as [k'|]; [|discriminate].
    inversion H; subst. destruct (IH k' eq_refl). simpl. split; [easy|lia].
Qed.

Lemma index_of_None c l : index_of c l = None <-> ~ In c l.
Proof.
  induction l as [|x l IH]; simpl; [easy|].
  destruct (Ascii.eqb x c) eqn:E.
  - apply Ascii.eqb_eq in E. subst. split; [discriminate|]. intros H. exfalso. auto.
  - apply Ascii.eqb_neq in E. destruct (index_of c l); simpl.
    + split; [discriminate|]. intros H. exfalso. apply H. right.
      destruct IH as [_ IH]. destruct (in_dec ascii_dec c l) as [Hi|Hn]; [exact Hi|].
      now specialize (IH Hn).
    + split; [|reflexivity]. intros _ [H|H]; [congruence|]. now apply IH.
Qed.

End Arrays.

(** ** [find_char] and [trim_RS485_command] *)

Section Extractor.

Implicit Types (l s pre post : list ascii) (buf : buffer) (c x : ascii).

Lemma length_until_nul l : (length (until_nul l) <= length l)%nat.
Proof.
  induction l as [|c l IH]; simpl; [lia|].
  destruct (is_nul c); simpl; lia.
Qed.

Lemma nth_error_until_nul l : forall i x,
  nth_error (until_nul l) i = Some x -> nth_error l i = Some x.
Proof.
  intros i x H. destruct (until_nul_prefix l) as [rest E].
  rewrite E. rewrite nth_error_app1; [exact H|].
  apply nth_error_Some. congruence.
Qed.

Lemma nth_error_firstn_Some l n i x :
  nth_error (firstn n l) i = Some x -> nth_error l i = Some x.
Proof.
  rewrite nth_error_firstn. destruct (i <? n)%nat; [easy|discriminate].
Qed.

(** The loop finds the first occurrence of [c] among the next [fuel]
    bytes, a zero byte ending the search. *)
Lemma find_char_loop_spec c : forall fuel (i : nat) buf,
  (i + fuel <= length buf)%nat ->
  find_char_loop fuel buf (Z.of_nat i) c =
  Some (match index_of c (until_nul (firstn fuel (skipn i buf))) with
        | Some k => Z.of_nat (i + k)
        | None => -1
        end).
Proof.
  induction fuel as [|fuel IH]; intros i buf Hlen;
    cbn [find_char_loop]; [reflexivity|].
  rewrite load_of_nat.
  destruct (nth_error_in_range buf i) as [x Hx]; [lia|].
  rewrite Hx, (skipn_nth_error _ _ _ Hx).
  cbn [firstn until_nul].
  destruct (is_nul x); [reflexivity|]. cbn [index_of].
  destruct (Ascii.eqb x c).
  - now rewrite Nat.add_0_r.
  - replace (Z.of_nat i + 1) with (Z.of_nat (S i)) by lia.
    rewrite IH by lia.
    destruct (index_of c (until_nul (firstn fuel (skipn (S i) buf))));
      cbn [option_map]; [do 2 f_equal; lia | reflexivity].
Qed.

Lemma find_char_valid buf (n s : nat) c :
  (n <= length buf)%nat ->
  (s <= length (until_nul (firstn n buf)))%nat ->
  find_char buf (Z.of_nat s) (Z.of_nat n - 1) c =
  Some (match index_of c (skipn s (until_nul (firstn n buf))) with
        | Some k => Z.of_nat (s + k)
        | None => -1
        end).
Proof.
  intros Hn Hs.
  assert (Hsn : (s <= n)%nat).
  { pose proof (length_until_nul (firstn n buf)) as H.
    rewrite length_firstn in H. lia. }
  unfold find_char.
  replace (Z.to_nat (Z.of_nat n - 1 - Z.of_nat s + 1)) with (n - s)%nat by lia.
  rewrite find_char_loop_spec by lia.
  rewrite firstn_skipn_comm.
  replace (s + (n - s))%nat with n by lia.
  now rewrite until_nul_skipn.
Qed.

(** What a successful extraction looks like in the buffer: the zero-free
    part of the valid bytes reads [pre / N a ! post]. *)
Lemma spec_extract_Some buf n a :
  spec_extract buf n = Some a ->
  exists s k : nat,
    index_of "/" (until_nul (firstn n buf)) = Some s /\
    index_of "!" (skipn s (until_nul (firstn n buf))) = Some k /\
    nth_error (until_nul (firstn n buf)) (S s) = Some MYID /\
    a = firstn (k - 2) (skipn (s + 2) (until_nul (firstn n buf))) /\
    (2 <= k)%nat /\ (s + k < length (until_nul (firstn n buf)))%nat.
Proof.
  unfold spec_extract. set (valid := until_nul (firstn n buf)).
  destruct (index_of "/" valid) as [s|] eqn:Hs; [|discriminate].
  destruct (index_of "!" (skipn s valid)) as [k|] eqn:Hk; [|discriminate].
  destruct (nth_error valid (S s)) as [t|] eqn:Ht; [|discriminate].
  destruct (Ascii.eqb t MYID) eqn:Et; [|discriminate].
  intros H. inversion H; subst a. clear H.
  apply Ascii.eqb_eq in Et. subst t.
  exists s, k. repeat split; try reflexivity; try assumption.
  - apply index_of_Some in Hs. destruct Hs as [Hs _].
    apply index_of_Some in Hk. destruct Hk as [Hk _].
    rewrite nth_error_skipn in Hk.
    destruct k as [|[|k]]; [| |lia].
    + rewrite Nat.add_0_r in Hk. rewrite Hs in Hk. discriminate.
    + replace (s + 1)%nat with (S s) in Hk by lia. rewrite Ht in Hk. discriminate.
  - apply index_of_Some in Hk. destruct Hk as [_ Hk].
    rewrite length_skipn in Hk. lia.
Qed.

Lemma c_str_at_nat (b : buffer) (p : nat) :
  c_str_at b (Z.of_nat p) = c_str (skipn p b).
Proof.
  unfold c_str_at, view. destruct (Z.ltb_spec (Z.of_nat p) 0); [lia|].
  now rewrite Nat2Z.id.
Qed.

(** The extractor computes what the specification's four steps describe.
    No frame: the buffer is made the empty string and returned.  A frame:
    the ['!'] is overwritten by a zero byte and the pointer returned is
    two past the ['/']. *)
Lemma trim_correct buf nbytes :
  (0 < length buf)%nat ->
  0 <= nbytes <= Z.of_nat (length buf) ->
  match spec_extract buf (Z.to_nat nbytes) with
  | None => trim_RS485_command buf nbytes = Some (upd buf 0 NUL, 0)
  | Some a =>
      exists s : nat,
        index_of "/" (until_nul (firstn (Z.to_nat nbytes) buf)) = Some s /\
        (s + 2 + length a < Z.to_nat nbytes)%nat /\
        trim_RS485_command buf nbytes =
          Some (upd buf (s + 2 + length a) NUL, Z.of_nat s + 2) /\
        skipn (s + 2) (upd buf (s + 2 + length a) NUL) =
          a ++ NUL :: skipn (S (s + 2 + length a)) buf /\
        nul_free a
  end.
Proof.
  intros Hpos Hn.
  remember (Z.to_nat nbytes) as n eqn:En.
  assert (Hnz : nbytes = Z.of_nat n) by lia.
  assert (Hnl : (n <= length buf)%nat) by lia.
  set (valid := until_nul (firstn n buf)).
  assert (Hvl : (length valid <= n)%nat).
  { pose proof (length_until_nul (firstn n buf)) as H.
    rewrite length_firstn in H. unfold valid. lia. }
  assert (Hstart : find_char buf 0 (nbytes - 1) "/" =
            Some (match index_of "/" valid with
                  | Some k => Z.of_nat k | None => -1 end)).
  { subst nbytes. change 0 with (Z.of_nat 0) at 1.
    rewrite find_char_valid by (simpl; lia). reflexivity. }
  assert (Hstore0 : store buf 0 NUL = Some (upd buf 0 NUL)).
  { change 0 with (Z.of_nat 0). now apply store_in_range. }
  destruct (spec_extract buf n) as [a|] eqn:Hspec.
  - destruct (spec_extract_Some _ _ _ Hspec)
      as (s & k & Hs & Hk & Ht & Ha & Hk2 & Hsk).
    fold valid in Hs, Hk, Ht, Ha, Hsk.
    assert (Hla : length a = (k - 2)%nat).
    { subst a. rewrite length_firstn, length_skipn. lia. }
    assert (Hfree : nul_free a).
    { subst a. apply nul_free_firstn, nul_free_skipn, until_nul_free. }
    exists s. split; [exact Hs|]. split; [lia|].
    replace (s + 2 + length a)%nat with (s + k)%nat by lia.
    destruct (until_nul_prefix (firstn n buf)) as [rest Erest].
    fold valid in Erest.
    assert (Ebuf : buf = valid ++ rest ++ skipn n buf).
    { rewrite app_assoc, <- Erest. symmetry. apply firstn_skipn. }
    split.
    + unfold trim_RS485_command. rewrite Hstart, Hs.
      destruct (Z.eqb_spec (Z.of_nat s) (-1)); [lia|].
      subst nbytes. rewrite (find_char_valid buf n s) by (fold valid; lia).
      fold valid. rewrite Hk.
      destruct (Z.eqb_spec (Z.of_nat (s + k)) (-1)); [lia|].
      replace (Z.of_nat s + 1) with (Z.of_nat (S s)) by lia.
      rewrite load_of_nat.
      rewrite (nth_error_firstn_Some buf n (S s) MYID)
        by (apply nth_error_until_nul; exact Ht).
      simpl. rewrite store_in_range by lia. reflexivity.
    + split; [|exact Hfree].
      unfold upd. rewrite skipn_app, length_firstn.
      replace (Nat.min (s + k) (length buf)) with (s + k)%nat by lia.
      replace (s + 2 - (s + k))%nat with 0%nat by lia. simpl skipn at 2.
      f_equal. rewrite skipn_firstn_comm.
      replace (s + k - (s + 2))%nat with (k - 2)%nat by lia.
      subst a. rewrite Ebuf at 1.
      rewrite skipn_app.
      replace (s + 2 - length valid)%nat with 0%nat by lia. simpl skipn at 2.
      rewrite firstn_app.
      replace (k - 2 - length (skipn (s + 2) valid))%nat with 0%nat
        by (rewrite length_skipn; lia).
      simpl. apply app_nil_r.
  - unfold trim_RS485_command. rewrite Hstart.
    unfold spec_extract in Hspec. fold valid in Hspec.
    destruct (index_of "/" valid) as [s|] eqn:Hs.
    + destruct (Z.eqb_spec (Z.of_nat s) (-1)); [lia|].
      pose proof (index_of_Some _ _ _ Hs) as [Hs1 Hs2].
      subst nbytes. rewrite (find_char_valid buf n s) by (fold valid; lia).
      fold valid.
      destruct (index_of "!" (skipn s valid)) as [k|] eqn:Hk.
      * destruct (Z.eqb_spec (Z.of_nat (s + k)) (-1)); [lia|].
        pose proof (index_of_Some _ _ _ Hk) as [Hk1 Hk2].
        rewrite nth_error_skipn in Hk1. rewrite length_skipn in Hk2.
        assert (Hk0 : k <> 0%nat).
        { intros ->. rewrite Nat.add_0_r in Hk1. rewrite Hs1 in Hk1. discriminate. }
        destruct (nth_error_in_range valid (S s)) as [t Ht]; [lia|].
        rewrite Ht in Hspec.
        replace (Z.of_nat s + 1) with (Z.of_nat (S s)) by lia.
        rewrite load_of_nat.
        rewrite (nth_error_firstn_Some buf n (S s) t)
          by (apply nth_error_until_nul; exact Ht).
        destruct (Ascii.eqb t MYID); [discriminate|]. simpl.
        now rewrite Hstore0.
      * simpl. now rewrite Hstore0.
    + simpl. now rewrite Hstore0.
Qed.

End Extractor.

(** ** [strtok] on a C string held in an array *)

Section Tokens.

Implicit Types (l s pre post tok : list ascii) (b : buffer) (c x : ascii).

Lemma skipn_exact pre l : skipn (length pre) (pre ++ l) = l.
Proof. induction pre; simpl; auto. Qed.

Lemma nth_error_exact pre x l : nth_error (pre ++ x :: l) (length pre) = Some x.
Proof. induction pre; simpl; auto. Qed.

Lemma cstr_at_c_str b p s :
  cstr_at b p s -> c_str_at b (Z.of_nat p) = Some s.
Proof.
  intros (pre & post & -> & <- & Hs).
  rewrite c_str_at_nat, skipn_exact. now apply c_str_app.
Qed.

Lemma c_str_cstr_at b (p : nat) s :
  c_str_at b (Z.of_nat p) = Some s -> cstr_at b p s.
Proof.
  rewrite c_str_at_nat. intros H.
  destruct (c_str_inv _ _ H) as [Hs [post E]].
  assert (Hp : (p < length b)%nat).
  { destruct (Nat.lt_ge_cases p (length b)) as [|Hge]; [easy|].
    rewrite skipn_all2 in E by exact Hge. now destruct s. }
  exists (firstn p b), post. repeat split.
  - rewrite <- E. symmetry. apply firstn_skipn.
  - rewrite length_firstn. lia.
  - exact Hs.
Qed.

Lemma cstr_at_load b p s :
  cstr_at b p s ->
  load b (Z.of_nat p) = Some (hd NUL s).
Proof.
  intros (pre & post & -> & <- & Hs). rewrite load_of_nat.
  destruct s; simpl; apply nth_error_exact.
Qed.

Lemma cstr_at_tail b p c s : cstr_at b p (c :: s) -> cstr_at b (S p) s.
Proof.
  intros (pre & post & -> & <- & Hs).
  exists (pre ++ [c]), post. repeat split.
  - now rewrite <- app_assoc.
  - rewrite length_app. simpl. lia.
  - now inversion Hs.
Qed.

Lemma length_skip_seps s : (length (skip_seps s) <= length s)%nat.
Proof.
  induction s as [|c s IH]; simpl; [lia|].
  destruct (mem_char c sep_tok); simpl; lia.
Qed.

Lemma skip_seps_split s :
  exists seps, s = seps ++ skip_seps s /\
               length seps = (length s - length (skip_seps s))%nat.
Proof.
  induction s as [|c s (seps & E & L)]; cbn [skip_seps].
  - now exists [].
  - destruct (mem_char c sep_tok).
    + exists (c :: seps). cbn [app length]. split; [now rewrite <- E|].
      pose proof (length_skip_seps s). lia.
    + exists []. cbn [app length]. split; [reflexivity|lia].
Qed.

Lemma skip_seps_head s c r :
  skip_seps s = c :: r -> mem_char c sep_tok = false.
Proof.
  induction s as [|x s IH]; simpl; [discriminate|].
  destruct (mem_char x sep_tok) eqn:E; [exact IH|].
  intros H. inversion H; subst. exact E.
Qed.

Lemma strspn_app s post :
  nul_free s ->
  strspn (s ++ NUL :: post) sep_tok =
  Some (Z.of_nat (length s - length (skip_seps s))).
Proof.
  induction 1 as [|c s Hc _ IH]; [reflexivity|].
  apply is_nul_false in Hc.
  cbn [app strspn skip_seps]. rewrite Hc.
  destruct (mem_char c sep_tok).
  - rewrite IH. cbn [option_map]. f_equal.
    pose proof (length_skip_seps s). cbn [length]. lia.
  - f_equal. cbn [length]. lia.
Qed.

Lemma strcspn_app s post :
  nul_free s ->
  strcspn (s ++ NUL :: post) sep_tok = Some (Z.of_nat (length (take_tok s))).
Proof.
  induction 1 as [|c s Hc _ IH]; [reflexivity|].
  apply is_nul_false in Hc.
  cbn [app strcspn take_tok]. rewrite Hc.
  destruct (mem_char c sep_tok); [reflexivity|].
  rewrite IH. cbn [option_map length]. f_equal. lia.
Qed.

(** A string is its first token, and then either nothing or a separator
    and the rest. *)
Lemma take_drop_tok s :
  (s = take_tok s /\ drop_tok s = []) \/
  (exists c, c <> NUL /\ s = take_tok s ++ c :: drop_tok s) \/
  (exists post', s = take_tok s ++ NUL :: post').
Proof.
  induction s as [|c s IH]; simpl; [now left|].
  destruct (mem_char c sep_tok) eqn:E.
  - destruct (Ascii.eqb_spec c NUL) as [->|Hn].
    + right; right. now exists s.
    + right; left. exists c. now split.
  - destruct IH as [[E1 E2] | [(x & Hx & E1) | (post' & E1)]].
    + left. split; [now rewrite <- E1 | exact E2].
    + right; left. exists x. split; [exact Hx | simpl; now rewrite <- E1].
    + right; right. exists post'. simpl. now rewrite <- E1.
Qed.

Lemma take_drop_tok_free s :
  nul_free s ->
  (s = take_tok s /\ drop_tok s = []) \/
  (exists c, c <> NUL /\ s = take_tok s ++ c :: drop_tok s).
Proof.
  intros Hs. destruct (take_drop_tok s) as [H | [H | (post' & E)]]; auto.
  exfalso. rewrite E in Hs. apply Forall_app in Hs. destruct Hs as [_ Hs].
  inversion Hs; subst. congruence.
Qed.

Lemma nul_free_skip_seps s : nul_free s -> nul_free (skip_seps s).
Proof.
  intros Hs. destruct (skip_seps_split s) as (seps & E & _).
  rewrite E in Hs. now apply Forall_app in Hs.
Qed.

Lemma nul_free_take_tok s : nul_free s -> nul_free (take_tok s).
Proof.
  induction 1 as [|c s Hc _ IH]; simpl; [constructor|].
  destruct (mem_char c sep_tok); constructor; assumption.
Qed.

Lemma nul_free_drop_tok s : nul_free s -> nul_free (drop_tok s).
Proof.
  induction 1 as [|c s Hc Hs IH]; simpl; [constructor|].
  destruct (mem_char c sep_tok); assumption.
Qed.

(** The first call, [strtok(&b[p], sep_tok)], on the string [s]. *)
Lemma strtok_first b p s save0 :
  cstr_at b p s ->
  match first_token s with
  | None => strtok b (Some (Z.of_nat p)) save0 sep_tok = Some (b, None, None)
  | Some tok =>
      exists b' (t : nat) save',
        strtok b (Some (Z.of_nat p)) save0 sep_tok =
          Some (b', Some (Z.of_nat t), save') /\
        cstr_at b' t tok /\
        length b' = length b /\
        match save' with
        | None => drop_tok (skip_seps s) = []
        | Some q => exists q' : nat, q = Z.of_nat q' /\
                      cstr_at b' q' (drop_tok (skip_seps s))
        end
  end.
Proof.
  intros (pre & post & -> & <- & Hs).
  destruct (skip_seps_split s) as (seps & Es & Ls).
  pose proof (nul_free_skip_seps s Hs) as Hs1.
  unfold first_token, strtok.
  destruct (Z.ltb_spec (Z.of_nat (length pre)) 0); [lia|].
  unfold view. rewrite Nat2Z.id, skipn_exact, (strspn_app s post Hs).
  rewrite <- Ls, <- Nat2Z.inj_add, <- length_app.
  assert (Eb : pre ++ s ++ NUL :: post =
               (pre ++ seps) ++ skip_seps s ++ NUL :: post).
  { rewrite Es at 1. now rewrite <- !app_assoc. }
  rewrite Eb. set (pre1 := pre ++ seps).
  destruct (skip_seps s) as [|c1 s1] eqn:E1.
  - rewrite load_of_nat. cbn [app]. rewrite nth_error_exact.
    now rewrite (proj2 (is_nul_true NUL) eq_refl).
  - rewrite load_of_nat. cbn [app]. rewrite nth_error_exact.
    assert (Hc1 : is_nul c1 = false).
    { apply is_nul_false. now inversion Hs1. }
    rewrite Hc1. rewrite Nat2Z.id.
    change (c1 :: s1 ++ NUL :: post) with ((c1 :: s1) ++ NUL :: post).
    rewrite skipn_exact, (strcspn_app _ post Hs1).
    rewrite <- Nat2Z.inj_add, load_of_nat.
    pose proof (nul_free_take_tok _ Hs1) as Htok.
    destruct (take_drop_tok_free _ Hs1) as [[Et Ed] | (x & Hx & Et)].
    + (* the token runs up to the end of the string *)
      rewrite <- Et.
      replace (pre1 ++ (c1 :: s1) ++ NUL :: post)
        with ((pre1 ++ c1 :: s1) ++ NUL :: post) by now rewrite <- app_assoc.
      rewrite <- length_app, nth_error_exact.
      rewrite (proj2 (is_nul_true NUL) eq_refl).
      exists ((pre1 ++ c1 :: s1) ++ NUL :: post), (length pre1), None.
      repeat split; [|exact Ed].
      exists pre1, post. rewrite <- app_assoc. now repeat split.
    + (* a separator ends the token and is overwritten *)
      set (tok := take_tok (c1 :: s1)) in *.
      set (rest := drop_tok (c1 :: s1)) in *.
      assert (Eb2 : pre1 ++ (c1 :: s1) ++ NUL :: post =
                    (pre1 ++ tok) ++ x :: rest ++ NUL :: post).
      { rewrite Et at 1. rewrite <- !app_assoc. reflexivity. }
      rewrite Eb2, <- length_app, nth_error_exact.
      apply is_nul_false in Hx. rewrite Hx.
      rewrite store_in_range
        by (rewrite !length_app; cbn [length]; lia).
      assert (Eupd : upd ((pre1 ++ tok) ++ x :: rest ++ NUL :: post)
                       (length (pre1 ++ tok)) NUL =
                     (pre1 ++ tok) ++ NUL :: rest ++ NUL :: post).
      { unfold upd. rewrite firstn_app, firstn_all, Nat.sub_diag.
        cbn [firstn]. rewrite app_nil_r. f_equal. f_equal.
        change (S (length (pre1 ++ tok))) with (1 + length (pre1 ++ tok))%nat.
        rewrite <- skipn_skipn, skipn_exact. reflexivity. }
      rewrite Eupd.
      exists ((pre1 ++ tok) ++ NUL :: rest ++ NUL :: post), (length pre1),
             (Some (Z.of_nat (length (pre1 ++ tok)) + 1)).
      repeat split.
      * exists pre1, (rest ++ NUL :: post).
        rewrite <- app_assoc. now repeat split.
      * rewrite !length_app. cbn [length]. rewrite !length_app.
        cbn [length]. lia.
      * exists (S (length (pre1 ++ tok))). split; [lia|].
        exists ((pre1 ++ tok) ++ [NUL]), post. repeat split.
        -- rewrite <- !app_assoc. reflexivity.
        -- rewrite length_app. cbn [length]. lia.
        -- now apply nul_free_drop_tok.
Qed.

(** The next call, [strtok(NULL, sep_tok)]. *)
Lemma strtok_next b save rest :
  match save with
  | None => rest = []
  | Some q => exists q' : nat, q = Z.of_nat q' /\ cstr_at b q' rest
  end ->
  match first_token rest with
  | None => strtok b None save sep_tok = Some (b, None, None)
  | Some tok =>
      exists b' (t : nat) save',
        strtok b None save sep_tok = Some (b', Some (Z.of_nat t), save') /\
        cstr_at b' t tok /\
        length b' = length b
  end.
Proof.
  destruct save as [q|].
  - intros (q' & -> & H).
    pose proof (strtok_first b q' rest None H) as Hf.
    change (strtok b None (Some (Z.of_nat q')) sep_tok)
      with (strtok b (Some (Z.of_nat q')) None sep_tok).
    destruct (first_token rest); [|exact Hf].
    destruct Hf as (b' & t & save' & E & Hc & Hl & _).
    now exists b', t, save'.
  - intros ->. reflexivity.
Qed.

End Tokens.

(** ** Formatting and sending a reply *)

Section Replies.

Implicit Types (l s text : list ascii) (b : buffer) (c x : ascii) (st : state).

Lemma nul_freeb_spec s : nul_freeb s = true -> nul_free s.
Proof.
  unfold nul_freeb, nul_free. rewrite forallb_forall, Forall_forall.
  intros H x Hx. apply is_nul_false. specialize (H x Hx).
  now destruct (is_nul x).
Qed.

Lemma c_str_until_nul l post : c_str (l ++ NUL :: post) = Some (until_nul l).
Proof.
  induction l as [|c l IH]; simpl; [reflexivity|].
  destruct (is_nul c); [reflexivity|]. now rewrite IH.
Qed.

Lemma sent_whole text :
  nul_free text -> (length text <= 267)%nat -> sent text = text.
Proof.
  intros Hf Hl. unfold sent.
  change (Z.to_nat (NBUFB - 1)) with 267%nat.
  rewrite firstn_all2 by exact Hl. now apply until_nul_id.
Qed.

Lemma length_sent text : (length (sent text) <= 267)%nat.
Proof.
  unfold sent. change (Z.to_nat (NBUFB - 1)) with 267%nat.
  pose proof (length_until_nul (firstn 267 text)) as H.
  rewrite length_firstn in H. lia.
Qed.

Lemma length_bufB_after text b :
  length b = 268%nat -> length (bufB_after text b) = 268%nat.
Proof.
  intros Hb. unfold bufB_after. change (Z.to_nat (NBUFB - 1)) with 267%nat.
  rewrite length_app, length_skipn, length_app, length_firstn.
  cbn [length]. lia.
Qed.

Lemma snprintf_bufB_ok st text :
  length (bufB st) = 268%nat ->
  snprintf_bufB st text = Some (set_bufB st (bufB_after text (bufB st))).
Proof.
  intros Hb. unfold snprintf_bufB, snprintf.
  change (NBUFB <=? 0) with false. cbv iota.
  assert (Hle : (length (firstn (Z.to_nat (NBUFB - 1)) text ++ [NUL])
                 <=? length (bufB st))%nat = true).
  { apply Nat.leb_le. rewrite Hb, length_app, length_firstn.
    change (Z.to_nat (NBUFB - 1)) with 267%nat. cbn [length]. lia. }
  rewrite Hle. reflexivity.
Qed.

Lemma uart1_putstr_after st text b :
  uart1_putstr st (bufB_after text b) =
  Some (log_call st (Call_uart1_putstr (sent text))).
Proof.
  unfold uart1_putstr, bufB_after.
  rewrite <- app_assoc. cbn [app]. now rewrite c_str_until_nul.
Qed.

(** Formatting [text] and sending it, as every case of the interpreter
    does. *)
Lemma emit_ok st text :
  length (bufB st) = 268%nat ->
  (st1 <- snprintf_bufB st text ;; uart1_putstr st1 (bufB st1)) =
  Some (log_call (set_bufB st (bufB_after text (bufB st)))
          (Call_uart1_putstr (sent text))).
Proof.
  intros Hb. rewrite snprintf_bufB_ok by exact Hb. st_simpl.
  apply uart1_putstr_after.
Qed.

(** *** Decimal output *)

Lemma digit_char_isdigit d : 0 <= d < 10 -> isdigit (digit_char d) = true.
Proof.
  intros H.
  assert (E : d = 0 \/ d = 1 \/ d = 2 \/ d = 3 \/ d = 4 \/
              d = 5 \/ d = 6 \/ d = 7 \/ d = 8 \/ d = 9) by lia.
  repeat (destruct E as [-> | E]; [reflexivity|]). now subst.
Qed.

Lemma isdigit_not_nul c : isdigit c = true -> c <> NUL.
Proof. intros H ->. discriminate. Qed.

Lemma dec_digits_isdigit fuel : forall n acc,
  Forall (fun c => isdigit c = true) acc ->
  Forall (fun c => isdigit c = true) (dec_digits fuel n acc).
Proof.
  induction fuel as [|fuel IH]; intros n acc Hacc; cbn [dec_digits]; [exact Hacc|].
  assert (Hd : Forall (fun c => isdigit c = true)
                 (digit_char (n mod 10) :: acc)).
  { constructor; [|exact Hacc]. apply digit_char_isdigit.
    apply Z.mod_pos_bound. lia. }
  destruct (n / 10 =? 0); [exact Hd | now apply IH].
Qed.

Lemma length_dec_digits fuel : forall n acc,
  (length (dec_digits fuel n acc) <= fuel + length acc)%nat.
Proof.
  induction fuel as [|fuel IH]; intros n acc; cbn [dec_digits]; [lia|].
  destruct (n / 10 =? 0); [cbn [length]; lia|].
  specialize (IH (n / 10) (digit_char (n mod 10) :: acc)).
  cbn [length] in IH. lia.
Qed.

Lemma fmt_u_isdigit n : Forall (fun c => isdigit c = true) (fmt_u n).
Proof. apply dec_digits_isdigit. constructor. Qed.

Lemma fmt_u_nul_free n : nul_free (fmt_u n).
Proof.
  eapply Forall_impl; [|apply fmt_u_isdigit].
  intros c. apply isdigit_not_nul.
Qed.

Lemma length_fmt_u n : 0 <= n < 65536 -> (length (fmt_u n) <= 16)%nat.
Proof.
  intros H. unfold fmt_u.
  pose proof (length_dec_digits (S (Z.to_nat (Z.log2 n))) n []) as L.
  cbn [length] in L.
  assert (Z.log2 n < 16).
  { destruct (Z.eq_dec n 0) as [->|]; [reflexivity|].
    apply Z.log2_lt_pow2; lia. }
  pose proof (Z.log2_nonneg n). lia.
Qed.

Lemma fmt_d_nonneg n : 0 <= n -> fmt_d n = fmt_u n.
Proof. intros H. unfold fmt_d. destruct (Z.ltb_spec n 0); [lia|reflexivity]. Qed.

Lemma wrap_unsigned_range bits z : 0 <= bits -> 0 <= wrap_unsigned bits z < 2 ^ bits.
Proof. intros H. unfold wrap_unsigned. apply Z.mod_pos_bound. now apply Z.pow_pos_nonneg. Qed.

Lemma wrap_unsigned_small bits z : 0 <= z < 2 ^ bits -> wrap_unsigned bits z = z.
Proof. intros H. unfold wrap_unsigned. now apply Z.mod_small. Qed.

Lemma wrap_signed_range z : -32768 <= wrap_signed 16 z < 32768.
Proof.
  unfold wrap_signed. change (2 ^ (16 - 1)) with 32768. change (2 ^ 16) with 65536.
  pose proof (Z.mod_pos_bound (z + 32768) 65536). lia.
Qed.

Lemma wrap_signed_small z : -32768 <= z < 32768 -> wrap_signed 16 z = z.
Proof.
  intros H. unfold wrap_signed.
  change (2 ^ (16 - 1)) with 32768. change (2 ^ 16) with 65536.
  rewrite Z.mod_small by lia. lia.
Qed.

Lemma atoi_range s : -32768 <= atoi s < 32768.
Proof.
  unfold atoi. destruct (skip_space s) as [|c r]; [lia|].
  destruct (Ascii.eqb c "-"); [apply wrap_signed_range|].
  destruct (Ascii.eqb c "+"); apply wrap_signed_range.
Qed.

Lemma land_1_cases n : Z.land n 1 = 0 \/ Z.land n 1 = 1.
Proof.
  assert (E : Z.land n 1 = n mod 2).
  { change 1 with (Z.ones 1). now rewrite Z.land_ones by lia. }
  rewrite E. pose proof (Z.mod_pos_bound n 2). lia.
Qed.

End Replies.

(** ** The cases of the interpreter *)

Section Interpreter.

Implicit Types (l s text tok : list ascii) (b : buffer) (c x : ascii)
  (st : state).

Lemma c_str_at_Z b (p : Z) s :
  c_str_at b p = Some s -> exists n : nat, p = Z.of_nat n /\ cstr_at b n s.
Proof.
  intros H. assert (Hp : 0 <= p).
  { unfold c_str_at in H. destruct (Z.ltb_spec p 0); [discriminate|lia]. }
  exists (Z.to_nat p). split; [lia|].
  apply c_str_cstr_at. now rewrite Z2Nat.id.
Qed.

Lemma atoi_at_cstr b (p : nat) s :
  cstr_at b p s -> atoi_at b (Z.of_nat p) = Some (atoi s).
Proof. intros H. unfold atoi_at. now rewrite (cstr_at_c_str _ _ _ H). Qed.

Lemma sent_text_v : sent text_v = text_v.
Proof. vm_compute. reflexivity. Qed.

Lemma sent_text_L_error : sent text_L_error = text_L_error.
Proof. vm_compute. reflexivity. Qed.

Lemma sent_text_w_off : sent text_w_off = text_w_off.
Proof. vm_compute. reflexivity. Qed.

Lemma sent_text_w_error : sent text_w_error = text_w_error.
Proof. vm_compute. reflexivity. Qed.

Lemma sent_text_default c : c <> NUL -> sent (text_default c) = text_default c.
Proof.
  intros Hc. apply sent_whole; [|cbn; lia].
  unfold text_default. apply Forall_app. split; [now apply nul_freeb_spec|].
  constructor; [exact Hc | now apply nul_freeb_spec].
Qed.

Lemma sent_text_L i : i = 0 \/ i = 1 -> sent (text_L i) = text_L i.
Proof. intros [-> | ->]; vm_compute; reflexivity. Qed.

Lemma nul_free_app s1 s2 : nul_free s1 -> nul_free s2 -> nul_free (s1 ++ s2).
Proof. intros H1 H2. apply Forall_app. now split. Qed.

Lemma sent_text_w_on level :
  0 <= level <= 255 -> sent (text_w_on level) = text_w_on level.
Proof.
  intros H. rewrite (fun pf => eq_sym (Z2Nat.id level pf)) by lia.
  assert (Hn : (Z.to_nat level < 256)%nat) by lia.
  revert Hn. generalize (Z.to_nat level). clear.
  intros n Hn.
  assert (Hall : forallb (fun k =>
            if list_eq_dec ascii_dec (sent (text_w_on (Z.of_nat k)))
                 (text_w_on (Z.of_nat k)) then true else false)
            (seq 0 256) = true) by (vm_compute; reflexivity).
  rewrite forallb_forall in Hall. specialize (Hall n).
  destruct (list_eq_dec ascii_dec (sent (text_w_on (Z.of_nat n)))
              (text_w_on (Z.of_nat n))) as [E|]; [exact E|].
  assert (false = true); [|discriminate].
  apply Hall. apply in_seq. lia.
Qed.

Lemma sent_text_a p8 p2 p4 p5 p6 :
  0 <= p8 < 65536 -> 0 <= p2 < 65536 -> 0 <= p4 < 65536 ->
  0 <= p5 < 65536 -> 0 <= p6 < 65536 ->
  sent (text_a p8 p2 p4 p5 p6) = text_a p8 p2 p4 p5 p6.
Proof.
  intros H8 H2 H4 H5 H6. apply sent_whole.
  - unfold text_a.
    repeat (apply nul_free_app;
            [first [apply fmt_u_nul_free | now apply nul_freeb_spec]|]).
    now apply nul_freeb_spec.
  - unfold text_a. rewrite !length_app.
    pose proof (length_fmt_u _ H8). pose proof (length_fmt_u _ H2).
    pose proof (length_fmt_u _ H4). pose proof (length_fmt_u _ H5).
    pose proof (length_fmt_u _ H6). cbn [chars list_ascii_of_string length]. lia.
Qed.

Lemma case_v_ok st :
  length (bufB st) = 268%nat ->
  exists st', case_v st = Some st' /\
    post st st' [Call_uart1_putstr text_v]
      (GREENLED st) (override_led st) (vref st).
Proof.
  intros Hb. unfold case_v. fold text_v.
  rewrite emit_ok by exact Hb. rewrite sent_text_v.
  eexists. split; [reflexivity|].
  unfold post. st_simpl. rewrite length_bufB_after by exact Hb.
  now rewrite Hb.
Qed.

Lemma case_default_ok st c :
  length (bufB st) = 268%nat -> c <> NUL ->
  exists st', case_default st c = Some st' /\
    post st st' [Call_uart1_putstr (text_default c)]
      (GREENLED st) (override_led st) (vref st).
Proof.
  intros Hb Hc. unfold case_default. fold (text_default c).
  rewrite emit_ok by exact Hb. rewrite sent_text_default by exact Hc.
  eexists. split; [reflexivity|].
  unfold post. st_simpl. rewrite length_bufB_after by exact Hb.
  now rewrite Hb.
Qed.

Lemma case_a_ok st :
  length (bufB st) = 268%nat ->
  exists st' p8 p2 p4 p5 p6,
    case_a st = Some st' /\
    post st st'
      [Call_ADC_read MY_ANC2; Call_ADC_read MY_ANC7; Call_ADC_read MY_ANB7;
       Call_ADC_read MY_ANB6; Call_ADC_read MY_ANB5;
       Call_uart1_putstr (text_a p8 p2 p4 p5 p6)]
      (GREENLED st) (override_led st) (vref st) /\
    sent (text_a p8 p2 p4 p5 p6) = text_a p8 p2 p4 p5 p6.
Proof.
  intros Hb. unfold case_a, ADC_read. st_simpl.
  match goal with
  | |- context [fmt_u ?a ++ chars " " ++ fmt_u ?b ++ chars " " ++ fmt_u ?c ++
                chars " " ++ fmt_u ?d ++ chars " " ++ fmt_u ?e ++ _] =>
      set (p8 := a); set (p2 := b); set (p4 := c); set (p5 := d); set (p6 := e)
  end.
  fold (text_a p8 p2 p4 p5 p6).
  rewrite emit_ok by (st_simpl; exact Hb).
  assert (Hs : sent (text_a p8 p2 p4 p5 p6) = text_a p8 p2 p4 p5 p6).
  { apply sent_text_a; apply (wrap_unsigned_range 16); lia. }
  rewrite Hs.
  eexists _, p8, p2, p4, p5, p6. split; [reflexivity|]. split; [|exact Hs].
  unfold post. st_simpl. rewrite length_bufB_after by exact Hb.
  rewrite <- !app_assoc. now rewrite Hb.
Qed.

Lemma post_lengths st cs b' save' bb :
  length b' = length (bufA st) ->
  length (bufB st) = 268%nat ->
  forall led ovr v st',
    calls st' = calls st ++ cs -> GREENLED st' = led ->
    override_led st' = ovr -> vref st' = v ->
    bufA st' = b' -> bufB st' = bufB_after bb (bufB st) ->
    strtok_save st' = save' ->
    post st st' cs led ovr v.
Proof.
  intros Hl Hb led ovr v st' H1 H2 H3 H4 H5 H6 _.
  unfold post. rewrite H1, H2, H3, H4, H5, H6, Hl.
  now rewrite length_bufB_after, Hb.
Qed.

(** Case ['L'], the payload tail being [s]. *)
Lemma case_L_ok st (cmd : nat) s :
  length (bufB st) = 268%nat ->
  cstr_at (bufA st) (S cmd) s ->
  exists st', case_L st (Z.of_nat cmd) = Some st' /\
    match first_token s with
    | None =>
        post st st' [Call_uart1_putstr text_L_error]
          (GREENLED st) (override_led st) (vref st)
    | Some tok =>
        post st st' [Call_uart1_putstr (text_L (Z.land (atoi tok) 1))]
          (Z.land (atoi tok) 1) (Z.land (atoi tok) 1) (vref st)
    end.
Proof.
  intros Hb Hs. unfold case_L, strtok_bufA.
  pose proof (strtok_first (bufA st) (S cmd) s (strtok_save st) Hs) as Hf.
  replace (Z.of_nat cmd + 1) with (Z.of_nat (S cmd)) by lia.
  destruct (first_token s) as [tok|].
  - destruct Hf as (b' & t & save' & E & Hc & Hl & _). rewrite E.
    cbv beta iota. st_simpl. rewrite (atoi_at_cstr _ _ _ Hc).
    cbv beta iota zeta. fold (text_L (wrap_unsigned 8 (Z.land (atoi tok) 1))).
    assert (Ei : wrap_unsigned 8 (Z.land (atoi tok) 1) = Z.land (atoi tok) 1).
    { destruct (land_1_cases (atoi tok)) as [E0|E0]; rewrite E0; reflexivity. }
    rewrite Ei.
    rewrite snprintf_bufB_ok by (st_simpl; exact Hb). st_simpl.
    rewrite uart1_putstr_after, sent_text_L by apply land_1_cases.
    eexists. split; [reflexivity|].
    eapply post_lengths with (b' := b'); st_simpl; try reflexivity; try assumption.
    destruct (land_1_cases (atoi tok)) as [E0|E0]; rewrite E0; reflexivity.
  - rewrite Hf. cbv beta iota. fold text_L_error.
    rewrite snprintf_bufB_ok by (st_simpl; exact Hb). st_simpl.
    rewrite uart1_putstr_after, sent_text_L_error.
    eexists. split; [reflexivity|].
    eapply post_lengths with (b' := bufA st); st_simpl; try reflexivity; assumption.
Qed.

Lemma clamp_range z : 0 <= clamp 0 255 z <= 255.
Proof.
  unfold clamp. destruct (Z.gtb_spec z 255); [lia|].
  destruct (Z.ltb_spec z 0); lia.
Qed.

(** Case ['w'], the payload tail being [s]. *)
Lemma case_w_ok st (cmd : nat) s :
  length (bufB st) = 268%nat ->
  cstr_at (bufA st) (S cmd) s ->
  exists st', case_w st (Z.of_nat cmd) = Some st' /\
    match first_token s with
    | None =>
        post st st' [Call_uart1_putstr text_w_error]
          (GREENLED st) (override_led st) (vref st)
    | Some tok =>
        if onOffFlag_of s =? 0 then
          post st st' [Call_set_VREF_off; Call_uart1_putstr text_w_off]
            (GREENLED st) (override_led st) (vref (set_VREF_off st))
        else
          post st st'
            [Call_set_VREF_on (clamp 0 255 (atoi tok));
             Call_uart1_putstr (text_w_on (clamp 0 255 (atoi tok)))]
            (GREENLED st) (override_led st)
            (vref (set_VREF_on st (clamp 0 255 (atoi tok))))
    end.
Proof.
  intros Hb Hs. unfold case_w, strtok_bufA.
  pose proof (strtok_first (bufA st) (S cmd) s (strtok_save st) Hs) as Hf.
  replace (Z.of_nat cmd + 1) with (Z.of_nat (S cmd)) by lia.
  destruct (first_token s) as [tok|].
  - destruct Hf as (b' & t & save' & E & Hc & Hl & Hsave). rewrite E.
    cbv beta iota. st_simpl. rewrite (atoi_at_cstr _ _ _ Hc).
    cbv beta iota zeta. st_simpl.
    rewrite (wrap_signed_small _ (atoi_range tok)).
    pose proof (strtok_next b' save' (drop_tok (skip_seps s)) Hsave) as Hn.
    unfold onOffFlag_of, second_token.
    assert (Hclamp : (if (if atoi tok >? 255 then 255 else atoi tok) <? 0
                      then 0 else if atoi tok >? 255 then 255 else atoi tok)
                     = clamp 0 255 (atoi tok)).
    { unfold clamp. destruct (Z.gtb_spec (atoi tok) 255); [reflexivity|].
      reflexivity. }
    pose proof (clamp_range (atoi tok)) as Hr.
    destruct (first_token (drop_tok (skip_seps s))) as [tok2|].
    + destruct Hn as (b'' & t2 & save'' & E2 & Hc2 & Hl2). rewrite E2.
      cbv beta iota. st_simpl. rewrite (atoi_at_cstr _ _ _ Hc2).
      cbv beta iota.
      destruct (wrap_signed 8 (atoi tok2) =? 0); cbv beta iota zeta;
        cbn [negb].
      * fold text_w_off.
        rewrite snprintf_bufB_ok by (st_simpl; exact Hb). st_simpl.
        rewrite uart1_putstr_after, sent_text_w_off.
        eexists. split; [reflexivity|].
        eapply post_lengths with (b' := b''); st_simpl;
          try reflexivity; try assumption;
          [congruence | now rewrite <- app_assoc].
      * rewrite Hclamp. fold (text_w_on (clamp 0 255 (atoi tok))).
        rewrite wrap_unsigned_small by (change (2 ^ 8) with 256; lia).
        rewrite snprintf_bufB_ok by (st_simpl; exact Hb). st_simpl.
        rewrite uart1_putstr_after, sent_text_w_on by exact Hr.
        eexists. split; [reflexivity|].
        eapply post_lengths with (b' := b''); st_simpl;
          try reflexivity; try assumption;
          [congruence | now rewrite <- app_assoc].
    + rewrite Hn. cbv beta iota zeta. st_simpl.
      change (negb (1 =? 0)) with true. cbv iota.
      rewrite Hclamp. fold (text_w_on (clamp 0 255 (atoi tok))).
      rewrite wrap_unsigned_small by (change (2 ^ 8) with 256; lia).
      rewrite snprintf_bufB_ok by (st_simpl; exact Hb). st_simpl.
      rewrite uart1_putstr_after, sent_text_w_on by exact Hr.
      eexists. split; [reflexivity|].
      change (1 =? 0) with false. cbv iota.
      eapply post_lengths with (b' := b'); st_simpl;
        try reflexivity; try assumption.
      now rewrite <- app_assoc.
  - rewrite Hf. cbv beta iota. fold text_w_error.
    rewrite snprintf_bufB_ok by (st_simpl; exact Hb). st_simpl.
    rewrite uart1_putstr_after, sent_text_w_error.
    eexists. split; [reflexivity|].
    eapply post_lengths with (b' := bufA st); st_simpl; try reflexivity; assumption.
Qed.

End Interpreter.

(** ** The interpreter as a whole *)

Section Dispatch.

Implicit Types (l s text tok : list ascii) (b : buffer) (c x : ascii)
  (st : state).

Lemma activity_led_post st v :
  post st (activity_led st v) []
    (if override_led st =? 0 then wrap_unsigned 1 v else GREENLED st)
    (override_led st) (vref st).
Proof.
  unfold activity_led, post.
  destruct (override_led st =? 0); st_simpl; rewrite app_nil_r; auto 10.
Qed.

Lemma activity_led_bufA st v : bufA (activity_led st v) = bufA st.
Proof. unfold activity_led. now destruct (override_led st =? 0). Qed.

Lemma activity_led_bufB st v : bufB (activity_led st v) = bufB st.
Proof. unfold activity_led. now destruct (override_led st =? 0). Qed.

(** The interpreter around a case that succeeds. *)
Lemma interpret_ok st (cmd : Z) c0 st2 cs led ovr v :
  load (bufA st) cmd = Some c0 ->
  dispatch (activity_led st 1) cmd c0 = Some st2 ->
  post (activity_led st 1) st2 cs led ovr v ->
  exists st', interpret_RS485_command st cmd = Some st' /\
    post st st' cs (if ovr =? 0 then 0 else led) ovr v.
Proof.
  intros Hload Hd (H1 & H2 & H3 & H4 & H5 & H6).
  unfold interpret_RS485_command. cbv zeta.
  rewrite activity_led_bufA, Hload, Hd.
  eexists. split; [reflexivity|].
  destruct (activity_led_post st2 0) as (K1 & K2 & K3 & K4 & K5 & K6).
  destruct (activity_led_post st 1) as (J1 & J2 & J3 & J4 & J5 & J6).
  rewrite app_nil_r in K1, J1.
  unfold post. rewrite K1, K2, K3, K4, K5, K6, H1, H3, H4, H5, H6, H2.
  rewrite J1, J5, J6. repeat split; reflexivity.
Qed.

Lemma framed_text_v : framed text_v.
Proof. exists (chars "v " ++ VERSION_STR). reflexivity. Qed.

Lemma framed_text_L i : framed (text_L i).
Proof.
  exists (chars "L " ++ fmt_d i). reflexivity.
Qed.

Lemma framed_text_L_error : framed text_L_error.
Proof. exists (chars "L error: no value"). reflexivity. Qed.

Lemma framed_text_a p8 p2 p4 p5 p6 : framed (text_a p8 p2 p4 p5 p6).
Proof.
  exists (chars "a " ++ fmt_u p8 ++ chars " " ++ fmt_u p2 ++ chars " " ++
          fmt_u p4 ++ chars " " ++ fmt_u p5 ++ chars " " ++ fmt_u p6).
  unfold text_a. rewrite <- !app_assoc. reflexivity.
Qed.

Lemma framed_text_w_on level : framed (text_w_on level).
Proof.
  exists (chars "w VREF on level=" ++ fmt_d level). reflexivity.
Qed.

Lemma framed_text_w_off : framed text_w_off.
Proof. exists (chars "w VREF off"). reflexivity. Qed.

Lemma framed_text_w_error : framed text_w_error.
Proof. exists (chars "w error: missing level and on/off flag"). reflexivity. Qed.

Lemma framed_text_default c : framed (text_default c).
Proof. exists ([c] ++ chars " error: Unknown command"). reflexivity. Qed.

(** Every case sends one framed reply, and leaves the LED and the override
    flag either untouched or equal to each other. *)
Lemma dispatch_total st (cmd : nat) c s :
  length (bufB st) = 268%nat ->
  cstr_at (bufA st) cmd (c :: s) ->
  exists st2 cs reply led ovr v,
    dispatch st (Z.of_nat cmd) c = Some st2 /\
    post st st2 cs led ovr v /\
    replies cs = [reply] /\ framed reply /\
    (led = ovr \/ (led = GREENLED st /\ ovr = override_led st)).
Proof.
  intros Hb Hc.
  assert (Hnul : c <> NUL).
  { destruct Hc as (_ & _ & _ & _ & Hf). now inversion Hf. }
  pose proof (cstr_at_tail _ _ _ _ Hc) as Hs.
  unfold dispatch.
  destruct (Ascii.eqb c "v").
  { destruct (case_v_ok st Hb) as (st2 & E & P).
    exists st2. do 5 eexists. split; [exact E|]. split; [exact P|].
    split; [reflexivity|]. split; [apply framed_text_v | now right]. }
  destruct (Ascii.eqb c "L").
  { destruct (case_L_ok st cmd s Hb Hs) as (st2 & E & P).
    exists st2. destruct (first_token s); do 5 eexists;
      (split; [exact E|]); (split; [exact P|]); (split; [reflexivity|]).
    - split; [apply framed_text_L | now left].
    - split; [apply framed_text_L_error | now right]. }
  destruct (Ascii.eqb c "a").
  { destruct (case_a_ok st Hb) as (st2 & p8 & p2 & p4 & p5 & p6 & E & P & _).
    exists st2. do 5 eexists. split; [exact E|]. split; [exact P|].
    split; [reflexivity|]. split; [apply framed_text_a | now right]. }
  destruct (Ascii.eqb c "w").
  { destruct (case_w_ok st cmd s Hb Hs) as (st2 & E & P).
    exists st2. destruct (first_token s); [destruct (onOffFlag_of s =? 0)|];
      do 5 eexists;
      (split; [exact E|]); (split; [exact P|]); (split; [reflexivity|]).
    - split; [apply framed_text_w_off | now right].
    - split; [apply framed_text_w_on | now right].
    - split; [apply framed_text_w_error | now right]. }
  destruct (case_default_ok st c Hb Hnul) as (st2 & E & P).
  exists st2. do 5 eexists. split; [exact E|]. split; [exact P|].
  split; [reflexivity|]. split; [apply framed_text_default | now right].
Qed.

Lemma interpret_total st (cmd : nat) c s :
  length (bufB st) = 268%nat ->
  cstr_at (bufA st) cmd (c :: s) ->
  exists st' cs reply,
    interpret_RS485_command st (Z.of_nat cmd) = Some st' /\
    calls st' = calls st ++ cs /\
    replies cs = [reply] /\ framed reply /\
    length (bufA st') = length (bufA st) /\
    length (bufB st') = length (bufB st) /\
    (led_inv st -> led_inv st').
Proof.
  intros Hb Hc.
  assert (Hb1 : length (bufB (activity_led st 1)) = 268%nat)
    by now rewrite activity_led_bufB.
  assert (Hc1 : cstr_at (bufA (activity_led st 1)) cmd (c :: s))
    by now rewrite activity_led_bufA.
  destruct (dispatch_total _ _ _ _ Hb1 Hc1)
    as (st2 & cs & reply & led & ovr & v & E & P & Hr & Hf & Hled).
  destruct (interpret_ok st (Z.of_nat cmd) c st2 cs led ovr v) as (st' & E' & P');
    [apply (cstr_at_load _ _ _ Hc) | exact E | exact P |].
  destruct P' as (P1 & P2 & P3 & P4 & P5 & P6).
  exists st', cs, reply. repeat split; try assumption.
  unfold led_inv. intros Hinv. rewrite P2, P3.
  destruct (Z.eqb_spec ovr 0) as [->|Hne]; [reflexivity|].
  destruct Hled as [-> | [-> ->]]; [reflexivity|].
  destruct (activity_led_post st 1) as (_ & J2 & J3 & _).
  rewrite J2, J3. rewrite J3 in Hne.
  destruct (Z.eqb_spec (override_led st) 0); [contradiction | exact Hinv].
Qed.

End Dispatch.

(** ** One pass of the polling loop *)

Section Poll.

Implicit Types (l s text tok : list ascii) (b line : buffer) (c x : ascii)
  (st : state).

Lemma replies_app cs1 cs2 : replies (cs1 ++ cs2) = replies cs1 ++ replies cs2.
Proof.
  induction cs1 as [|[ | | | ] cs1 IH]; simpl; now rewrite ?IH.
Qed.

Lemma framed_framedb reply : framed reply -> framedb reply = true.
Proof.
  intros [body ->]. unfold framedb, ends_with. apply andb_true_iff. split.
  - reflexivity.
  - replace (chars "/0" ++ body ++ chars "#" ++ [LF])
      with ((chars "/0" ++ body) ++ chars "#" ++ [LF])
      by now rewrite <- app_assoc.
    rewrite (rev_app_distr (chars "/0" ++ body)). reflexivity.
Qed.

Lemma load_skipn b (p : nat) x rest :
  skipn p b = x :: rest -> load b (Z.of_nat p) = Some x.
Proof.
  intros H. rewrite load_of_nat.
  rewrite <- (Nat.add_0_r p), <- nth_error_skipn, H. reflexivity.
Qed.

Lemma skipn_cstr_at b (p : nat) s rest :
  skipn p b = s ++ NUL :: rest -> nul_free s -> cstr_at b p s.
Proof.
  intros H Hs. exists (firstn p b), rest. repeat split; [| |exact Hs].
  - rewrite <- H. symmetry. apply firstn_skipn.
  - rewrite length_firstn.
    destruct (Nat.le_gt_cases p (length b)) as [|Hgt]; [lia|].
    rewrite skipn_all2 in H by lia. now destruct s.
Qed.

(** A line without a frame for this node, or with an empty payload, is
    dropped: nothing is called and the device is left as it was. *)
Lemma poll_discard st m line :
  length line = 80%nat ->
  spec_extract line 80 = None \/ spec_extract line 80 = Some [] ->
  exists st', poll_iteration st m line = Some st' /\
    calls st' = calls st /\ GREENLED st' = GREENLED st /\
    override_led st' = override_led st /\ vref st' = vref st /\
    length (bufA st') = 80%nat /\ bufB st' = bufB st.
Proof.
  intros Hl Hspec. unfold poll_iteration. cbv zeta. st_simpl.
  destruct (m >? 0).
  2:{ eexists. split; [reflexivity|]. st_simpl. now repeat split. }
  pose proof (trim_correct line NBUFA) as Ht.
  change (Z.to_nat NBUFA) with 80%nat in Ht.
  specialize (Ht ltac:(lia) ltac:(unfold NBUFA; lia)).
  destruct Hspec as [E|E]; rewrite E in Ht.
  - rewrite Ht. cbv beta iota. st_simpl.
    assert (Hld : load (upd line 0 NUL) 0 = Some NUL) by reflexivity.
    rewrite Hld. cbn [is_nul negb]. change (is_nul NUL) with true. cbv iota.
    cbn [negb]. eexists. split; [reflexivity|]. st_simpl.
    repeat split; try reflexivity. rewrite length_upd; lia.
  - destruct Ht as (s0 & _ & Hlt & Ht & Hsk & _). cbn [length] in *.
    rewrite Ht. cbv beta iota. st_simpl.
    replace (Z.of_nat s0 + 2) with (Z.of_nat (s0 + 2)) by lia.
    cbn [app] in Hsk. rewrite (load_skipn _ _ _ _ Hsk).
    change (is_nul NUL) with true. cbn [negb].
    eexists. split; [reflexivity|]. st_simpl.
    repeat split; try reflexivity. rewrite length_upd; lia.
Qed.

(** A line with a frame for this node and a payload is handed to the
    interpreter, the payload being a C string in [bufA]. *)
Lemma poll_frame st m line c s :
  0 < m ->
  length line = 80%nat ->
  spec_extract line 80 = Some (c :: s) ->
  exists buf' (cmd : nat),
    poll_iteration st m line =
      interpret_RS485_command (set_bufA st buf') (Z.of_nat cmd) /\
    cstr_at buf' cmd (c :: s) /\ length buf' = 80%nat.
Proof.
  intros Hm Hl Hspec. unfold poll_iteration. cbv zeta. st_simpl.
  destruct (Z.gtb_spec m 0); [|lia].
  pose proof (trim_correct line NBUFA) as Ht.
  change (Z.to_nat NBUFA) with 80%nat in Ht.
  specialize (Ht ltac:(lia) ltac:(unfold NBUFA; lia)).
  rewrite Hspec in Ht. destruct Ht as (s0 & _ & Hlt & Ht & Hsk & Hfree).
  rewrite Ht. cbv beta iota. st_simpl.
  replace (Z.of_nat s0 + 2) with (Z.of_nat (s0 + 2)) by lia.
  cbn [app] in Hsk. rewrite (load_skipn _ _ _ _ Hsk).
  assert (Hc : is_nul c = false).
  { apply is_nul_false. now inversion Hfree. }
  rewrite Hc. cbn [negb].
  exists (upd line (s0 + 2 + length (c :: s)) NUL), (s0 + 2)%nat.
  split; [reflexivity|]. split.
  - eapply skipn_cstr_at; [exact Hsk | exact Hfree].
  - rewrite length_upd; lia.
Qed.

(** A frame for this node with a payload gets one framed reply. *)
Lemma poll_reply st m line c s :
  0 < m ->
  length line = 80%nat ->
  length (bufB st) = 268%nat ->
  spec_extract line 80 = Some (c :: s) ->
  exists st' cs reply,
    poll_iteration st m line = Some st' /\
    calls st' = calls st ++ cs /\
    replies cs = [reply] /\ framed reply /\
    length (bufA st') = 80%nat /\ length (bufB st') = 268%nat /\
    (led_inv st -> led_inv st').
Proof.
  intros Hm Hl Hb Hspec.
  destruct (poll_frame st m line c s Hm Hl Hspec) as (buf' & cmd & E & Hc & Hl').
  destruct (interpret_total (set_bufA st buf') cmd c s)
    as (st' & cs & reply & E' & H1 & H2 & H3 & H4 & H5 & H6); [exact Hb | exact Hc |].
  exists st', cs, reply. rewrite E.
  cbn [bufA bufB calls GREENLED override_led set_bufA] in *.
  unfold led_inv in *. cbn [GREENLED override_led set_bufA] in H6.
  repeat split; try assumption; congruence.
Qed.

(** Lacking ['/'], lacking ['!'] or being addressed to another node, a
    line holds no frame. *)
Lemma noise_no_frame line :
  length line = 80%nat ->
  ~ In "/"%char (rx_line line) \/ ~ In "!"%char (rx_line line) \/
    target_id line <> Some MYID ->
  spec_extract line 80 = None.
Proof.
  intros Hl H. unfold spec_extract, target_id, rx_line in *.
  rewrite firstn_all2 by lia.
  destruct (index_of "/" (until_nul line)) as [s0|] eqn:Hs; [|reflexivity].
  destruct (index_of "!" (skipn s0 (until_nul line))) as [k|] eqn:Hk;
    [|reflexivity].
  destruct H as [H | [H | H]].
  - exfalso. apply H. apply index_of_Some in Hs. destruct Hs as [Hs _].
    eapply nth_error_In; eauto.
  - exfalso. apply H. apply index_of_Some in Hk. destruct Hk as [Hk _].
    rewrite nth_error_skipn in Hk. eapply nth_error_In; eauto.
  - destruct (nth_error (until_nul line) (S s0)) as [t|]; [|reflexivity].
    destruct (Ascii.eqb_spec t MYID) as [->|]; [congruence | reflexivity].
Qed.

End Poll.

(** * The claims *)

(** ** Frame Extractor *)

(** C1.  For a buffer of 1 to 80 bytes of which the first [nbytes] are
    valid, [trim_RS485_command] does what the four steps of the
    specification ([spec_extract]) describe, zero bytes ending every scan.
    When the steps yield no frame (no ['/'], no ['!'] from the first ['/']
    on, or a byte other than ['N'] after the first ['/']), the function
    returns the buffer as the empty string.  When they yield the payload
    [a], the function returns the pointer two past the first ['/'] and the
    C string found there is exactly [a], the bytes between the target-id
    byte and the first ['!']. *)
Theorem C1_trim_implements_frame_extractor (buf : buffer) (nbytes : Z) :
  (0 < length buf)%nat ->
  Z.of_nat (length buf) <= NBUFA ->
  0 <= nbytes <= Z.of_nat (length buf) ->
  match spec_extract buf (Z.to_nat nbytes) with
  | None =>
      exists buf',
        trim_RS485_command buf nbytes = Some (buf', 0) /\
        c_str_at buf' 0 = Some []
  | Some a =>
      exists buf' (start : nat),
        index_of "/" (until_nul (firstn (Z.to_nat nbytes) buf)) = Some start /\
        trim_RS485_command buf nbytes = Some (buf', Z.of_nat start + 2) /\
        c_str_at buf' (Z.of_nat start + 2) = Some a
  end.
Proof.
  intros Hpos _ Hn. pose proof (trim_correct buf nbytes Hpos Hn) as H.
  destruct (spec_extract buf (Z.to_nat nbytes)) as [a|].
  - destruct H as (s & Hs & _ & Ht & Hsk & Hfree).
    exists (upd buf (s + 2 + length a) NUL), s.
    split; [exact Hs|]. split; [exact Ht|].
    replace (Z.of_nat s + 2) with (Z.of_nat (s + 2)) by lia.
    rewrite c_str_at_nat, Hsk. now apply c_str_app.
  - exists (upd buf 0 NUL). split; [exact H|]. reflexivity.
Qed.

Lemma C1_witness :
  (0 < length (chars "ab/NL1!zz"))%nat /\
  Z.of_nat (length (chars "ab/NL1!zz")) <= NBUFA /\
  0 <= 9 <= Z.of_nat (length (chars "ab/NL1!zz")) /\
  exists buf' (start : nat),
    index_of "/" (until_nul (firstn (Z.to_nat 9) (chars "ab/NL1!zz")))
      = Some start /\
    trim_RS485_command (chars "ab/NL1!zz") 9 = Some (buf', Z.of_nat start + 2) /\
    c_str_at buf' (Z.of_nat start + 2) = Some (chars "L1").
Proof.
  split; [cbn; lia|]. split; [unfold NBUFA; cbn; lia|]. split; [cbn; lia|].
  apply (C1_trim_implements_frame_extractor (chars "ab/NL1!zz") 9);
    unfold NBUFA; cbn; lia.
Defined.

(** ** Silence on noise *)

(** C2.  A received line that lacks ['/'], or lacks ['!'], or whose byte
    after the first ['/'] is not this node's identity, makes the loop body
    finish without a fault and without any call: no [uart1_putstr], so no
    reply.  The loop then goes on with the next line. *)
Theorem C2_no_reply_to_malformed_or_foreign
  (st : state) (m : Z) (line : buffer) (rx : list (Z * buffer)) :
  length line = Z.to_nat NBUFA ->
  ~ In "/"%char (rx_line line) \/ ~ In "!"%char (rx_line line) \/
    target_id line <> Some MYID ->
  exists st',
    poll_iteration st m line = Some st' /\
    calls st' = calls st /\
    replies (calls st') = replies (calls st) /\
    poll_loop st ((m, line) :: rx) = poll_loop st' rx.
Proof.
  intros Hl H.
  destruct (poll_discard st m line Hl) as (st' & E & Hc & _).
  { left. now apply noise_no_frame. }
  exists st'. split; [exact E|]. split; [exact Hc|].
  split; [now rewrite Hc|]. cbn [poll_loop]. now rewrite E.
Qed.

Lemma C2_witness :
  length (line_buffer (chars "/Xv!")) = Z.to_nat NBUFA /\
  target_id (line_buffer (chars "/Xv!")) <> Some MYID /\
  exists st',
    poll_iteration (reset_state (fun _ => 0)) 4 (line_buffer (chars "/Xv!"))
      = Some st' /\
    calls st' = calls (reset_state (fun _ => 0)) /\
    replies (calls st') = replies (calls (reset_state (fun _ => 0))) /\
    poll_loop (reset_state (fun _ => 0)) [(4, line_buffer (chars "/Xv!"))]
      = poll_loop st' [].
Proof.
  split; [reflexivity|]. split; [discriminate|].
  apply (C2_no_reply_to_malformed_or_foreign (reset_state (fun _ => 0)) 4
           (line_buffer (chars "/Xv!")) []).
  - reflexivity.
  - right. right. discriminate.
Defined.

(** ** One reply per frame *)

(** C3 as it is stated fails: the frame ["/N!"] is valid and addressed to
    this node, and no reply is sent for it, the payload being empty. *)
Lemma C3_counterexample :
  ~ (forall (st : state) (m : Z) (line : buffer) (a : list ascii),
       length line = Z.to_nat NBUFA ->
       length (bufB st) = Z.to_nat NBUFB ->
       0 < m ->
       spec_extract line 80 = Some a ->
       exists st' reply,
         poll_iteration st m line = Some st' /\
         replies (calls st') = replies (calls st) ++ [reply] /\
         framedb reply = true).
Proof.
  intros H.
  destruct (H (reset_state (fun _ => 0)) 3 (line_buffer (chars "/N!")) [])
    as (st' & reply & E & R & _); try reflexivity.
  destruct (poll_discard (reset_state (fun _ => 0)) 3
              (line_buffer (chars "/N!")) eq_refl (or_intror eq_refl))
    as (st'' & E' & Hc & _).
  rewrite E in E'. inversion E'; subst st''.
  rewrite Hc in R. discriminate R.
Qed.

(** C3, amended.  For every frame addressed to this node whose payload is
    not empty, the line having been reported by [uart1_getstr] with a
    positive count, exactly one reply is sent; it begins with ["/0"] and
    ends with ['#'] and the line terminator. *)
Theorem C3_one_framed_reply_per_frame
  (st : state) (m : Z) (line : buffer) (a : list ascii) :
  length line = Z.to_nat NBUFA ->
  length (bufB st) = Z.to_nat NBUFB ->
  0 < m ->
  spec_extract line 80 = Some a ->
  a <> [] ->
  exists st' reply,
    poll_iteration st m line = Some st' /\
    replies (calls st') = replies (calls st) ++ [reply] /\
    framedb reply = true.
Proof.
  intros Hl Hb Hm Hspec Ha. destruct a as [|c s]; [contradiction|].
  destruct (poll_reply st m line c s Hm Hl Hb Hspec)
    as (st' & cs & reply & E & Hc & Hr & Hf & _).
  exists st', reply. split; [exact E|].
  split; [now rewrite Hc, replies_app, Hr | now apply framed_framedb].
Qed.

Lemma C3_witness :
  spec_extract (line_buffer (chars "/Nv!")) 80 = Some (chars "v") /\
  exists st' reply,
    poll_iteration (reset_state (fun _ => 0)) 4 (line_buffer (chars "/Nv!"))
      = Some st' /\
    replies (calls st') = replies (calls (reset_state (fun _ => 0))) ++ [reply] /\
    framedb reply = true.
Proof.
  split; [reflexivity|].
  apply (C3_one_framed_reply_per_frame (reset_state (fun _ => 0)) 4
           (line_buffer (chars "/Nv!")) (chars "v"));
    [reflexivity | reflexivity | lia | reflexivity | discriminate].
Defined.

(** ** Commands *)

Section CommandLemmas.

Implicit Types (l s tail tok : list ascii) (b : buffer) (c x : ascii)
  (st : state).

(** A case that leaves the LED and the flag alone, run from a state where
    the LED follows the flag, leaves the LED as it was before the call. *)
Lemma interpret_quiet st (cmd : Z) c0 st2 cs v :
  led_inv st ->
  load (bufA st) cmd = Some c0 ->
  dispatch (activity_led st 1) cmd c0 = Some st2 ->
  post (activity_led st 1) st2 cs
    (GREENLED (activity_led st 1)) (override_led (activity_led st 1)) v ->
  exists st', interpret_RS485_command st cmd = Some st' /\
    post st st' cs (GREENLED st) (override_led st) v.
Proof.
  intros Hinv Hload Hd P.
  destruct (interpret_ok _ _ _ _ _ _ _ _ Hload Hd P) as (st' & E & P').
  exists st'. split; [exact E|].
  destruct (activity_led_post st 1) as (_ & J2 & J3 & _).
  rewrite J2, J3 in P'. unfold led_inv in Hinv.
  destruct (Z.eqb_spec (override_led st) 0) as [E0|]; [|exact P'].
  replace (GREENLED st) with 0 by congruence. exact P'.
Qed.

Lemma interpret_unknown st (cmd : Z) c :
  length (bufB st) = 268%nat ->
  load (bufA st) cmd = Some c ->
  c <> NUL -> c <> "v"%char -> c <> "L"%char -> c <> "a"%char ->
  c <> "w"%char ->
  exists st', interpret_RS485_command st cmd = Some st' /\
    calls st' = calls st ++ [Call_uart1_putstr (text_default c)].
Proof.
  intros Hb Hload Hn Hv HL Ha Hw.
  assert (Hb1 : length (bufB (activity_led st 1)) = 268%nat)
    by now rewrite activity_led_bufB.
  destruct (case_default_ok _ c Hb1 Hn) as (st2 & E & P).
  assert (Hd : dispatch (activity_led st 1) cmd c = Some st2).
  { unfold dispatch.
    apply Ascii.eqb_neq in Hv, HL, Ha, Hw. now rewrite Hv, HL, Ha, Hw. }
  destruct (interpret_ok st cmd c st2 _ _ _ _ Hload Hd P) as (st' & E' & P').
  exists st'. split; [exact E'|]. apply P'.
Qed.

Lemma skip_seps_all s :
  Forall (fun x => mem_char x sep_tok = true) s -> skip_seps s = [].
Proof.
  induction 1 as [|x s Hx _ IH]; simpl; [reflexivity|]. now rewrite Hx.
Qed.

Lemma atoi_digits_non_digit c r acc : isdigit c = false -> atoi_digits (c :: r) acc = acc.
Proof. intros H. simpl. now rewrite H. Qed.

(** Without a leading number, the conversion yields 0. *)
Lemma non_numeric_atoi tok : non_numeric tok = true -> atoi tok = 0.
Proof.
  unfold non_numeric, atoi.
  destruct (skip_space tok) as [|c r]; [reflexivity|].
  destruct (Ascii.eqb c "-") eqn:Em; [|destruct (Ascii.eqb c "+") eqn:Ep];
    cbn [orb].
  - destruct r as [|d r]; [reflexivity|]. intros H.
    apply negb_true_iff in H. now rewrite atoi_digits_non_digit.
  - destruct r as [|d r]; [reflexivity|]. intros H.
    apply negb_true_iff in H. now rewrite atoi_digits_non_digit.
  - intros H. apply negb_true_iff in H. now rewrite atoi_digits_non_digit.
Qed.

(** A property checked on each of 0..255 holds of every byte value. *)
Lemma forall_byte (P : Z -> bool) :
  forallb (fun k => P (Z.of_nat k)) (seq 0 256) = true ->
  forall z, 0 <= z <= 255 -> P z = true.
Proof.
  intros H z Hz. rewrite forallb_forall in H.
  rewrite <- (Z2Nat.id z) by lia. apply H. apply in_seq. lia.
Qed.

Lemma text_w_on_no_error level :
  0 <= level <= 255 -> contains (chars "error") (text_w_on level) = false.
Proof.
  intros H. apply negb_true_iff.
  apply (forall_byte (fun z => negb (contains (chars "error") (text_w_on z))));
    [vm_compute; reflexivity | exact H].
Qed.

Lemma atoi_fmt_d_byte level : 0 <= level <= 255 -> atoi (fmt_d level) = level.
Proof.
  intros H. apply Z.eqb_eq.
  apply (forall_byte (fun z => atoi (fmt_d z) =? z));
    [vm_compute; reflexivity | exact H].
Qed.

End CommandLemmas.

(** C4.  A payload that is not empty and whose first byte [c] is none of
    ['v'], ['L'], ['a'], ['w'] makes the interpreter send exactly
    ["/0"], [c], [" error: Unknown command#\n"].  The line ["/Nz!"] is
    answered with ["/0z error: Unknown command#\n"]. *)
Theorem C4_unknown_command_reply
  (st : state) (cmdStr : Z) (c : ascii) (m : Z) :
  length (bufB st) = Z.to_nat NBUFB ->
  load (bufA st) cmdStr = Some c ->
  c <> NUL ->
  c <> "v"%char -> c <> "L"%char -> c <> "a"%char -> c <> "w"%char ->
  0 < m ->
  (exists st',
     interpret_RS485_command st cmdStr = Some st' /\
     calls st' = calls st ++
       [Call_uart1_putstr
          (chars "/0" ++ [c] ++ chars " error: Unknown command#" ++ [LF])]) /\
  (exists st',
     poll_iteration st m (line_buffer (chars "/Nz!")) = Some st' /\
     calls st' = calls st ++
       [Call_uart1_putstr (chars "/0z error: Unknown command#" ++ [LF])]).
Proof.
  intros Hb Hload Hn Hv HL Ha Hw Hm. split.
  - exact (interpret_unknown st cmdStr c Hb Hload Hn Hv HL Ha Hw).
  - destruct (poll_frame st m (line_buffer (chars "/Nz!")) "z"%char [] Hm
                eq_refl eq_refl) as (buf' & cmd & E & Hc & _).
    rewrite E.
    destruct (interpret_unknown (set_bufA st buf') (Z.of_nat cmd) "z"%char)
      as (st' & E' & Hcalls); try discriminate.
    + exact Hb.
    + apply (cstr_at_load _ _ _ Hc).
    + exists st'. split; [exact E' | exact Hcalls].
Qed.

Lemma C4_witness :
  (exists st',
     interpret_RS485_command
       (set_bufA (reset_state (fun _ => 0)) (line_buffer (chars "?")))
       0 = Some st' /\
     calls st' =
       [Call_uart1_putstr (chars "/0? error: Unknown command#" ++ [LF])]) /\
  (exists st',
     poll_iteration
       (set_bufA (reset_state (fun _ => 0)) (line_buffer (chars "?")))
       4 (line_buffer (chars "/Nz!")) = Some st' /\
     calls st' =
       [Call_uart1_putstr (chars "/0z error: Unknown command#" ++ [LF])]).
Proof.
  apply (C4_unknown_command_reply
           (set_bufA (reset_state (fun _ => 0)) (line_buffer (chars "?")))
           0 "?"%char 4);
    first [reflexivity | discriminate].
Defined.

(** C5.  An ['L'] or ['w'] command with nothing but separators after the
    command character is answered with a reply that contains ["error"],
    and the operation is not attempted: nothing else is called (neither
    [set_VREF_on] nor [set_VREF_off]), the reference registers are
    untouched, and after the call the LED and the override flag have the
    values they had before it.  The state before the call is one in which
    the LED follows the override flag, as it does in every state the
    program reaches (C9). *)
Theorem C5_missing_argument_is_an_error
  (st : state) (cmdStr : Z) (c : ascii) (tail : list ascii) :
  length (bufB st) = Z.to_nat NBUFB ->
  led_inv st ->
  c_str_at (bufA st) cmdStr = Some (c :: tail) ->
  c = "L"%char \/ c = "w"%char ->
  Forall (fun x => mem_char x sep_tok = true) tail ->
  exists st' reply,
    interpret_RS485_command st cmdStr = Some st' /\
    calls st' = calls st ++ [Call_uart1_putstr reply] /\
    contains (chars "error") reply = true /\
    GREENLED st' = GREENLED st /\
    override_led st' = override_led st /\
    vref st' = vref st.
Proof.
  intros Hb Hinv Hstr Hc Hsep.
  destruct (c_str_at_Z _ _ _ Hstr) as (cmd & -> & Hat).
  pose proof (cstr_at_load _ _ _ Hat) as Hload. cbn [hd] in Hload.
  pose proof (cstr_at_tail _ _ _ _ Hat) as Htail.
  assert (Hb1 : length (bufB (activity_led st 1)) = 268%nat)
    by now rewrite activity_led_bufB.
  rewrite <- (activity_led_bufA st 1) in Htail.
  assert (Hnone : first_token tail = None).
  { unfold first_token. now rewrite skip_seps_all. }
  destruct Hc as [-> | ->].
  - destruct (case_L_ok _ cmd tail Hb1 Htail) as (st2 & E & P).
    rewrite Hnone in P.
    destruct (interpret_quiet st (Z.of_nat cmd) "L"%char st2 _ _ Hinv Hload E P)
      as (st' & E' & P1 & P2 & P3 & P4 & _).
    destruct (activity_led_post st 1) as (_ & _ & _ & J4 & _).
    exists st', text_L_error. repeat split; try assumption; congruence.
  - destruct (case_w_ok _ cmd tail Hb1 Htail) as (st2 & E & P).
    rewrite Hnone in P.
    destruct (interpret_quiet st (Z.of_nat cmd) "w"%char st2 _ _ Hinv Hload E P)
      as (st' & E' & P1 & P2 & P3 & P4 & _).
    destruct (activity_led_post st 1) as (_ & _ & _ & J4 & _).
    exists st', text_w_error. repeat split; try assumption; congruence.
Qed.

Lemma C5_witness :
  exists st' reply,
    interpret_RS485_command
      (set_bufA (reset_state (fun _ => 0)) (line_buffer (chars "/NL")))
      2 = Some st' /\
    calls st' = [Call_uart1_putstr reply] /\
    contains (chars "error") reply = true /\
    GREENLED st' = 0 /\ override_led st' = 0 /\
    vref st' = vref (reset_state (fun _ => 0)).
Proof.
  apply (C5_missing_argument_is_an_error
           (set_bufA (reset_state (fun _ => 0)) (line_buffer (chars "/NL")))
           2 "L"%char []);
    [reflexivity | reflexivity | reflexivity | now left | constructor].
Defined.

(** ** Round trip through the extractor *)

Section RoundTrip.

Implicit Types (a rest : list ascii) (c x : ascii).

Lemma index_of_app_first c a rest :
  ~ In c a -> index_of c (a ++ c :: rest) = Some (length a).
Proof.
  induction a as [|x a IH]; intros Hn; cbn [app index_of length].
  - now rewrite Ascii.eqb_refl.
  - destruct (Ascii.eqb_spec x c) as [->|_].
    + exfalso. apply Hn. now left.
    + rewrite IH; [reflexivity|]. intros Hi. apply Hn. now right.
Qed.

Lemma spec_extract_encode a rest n :
  nul_free a -> ~ In "!"%char a ->
  (length (encode a) <= n)%nat ->
  spec_extract (encode a ++ rest) n = Some a.
Proof.
  intros Hf Hn Hlen. unfold spec_extract.
  assert (Ev : exists tl, until_nul (firstn n (encode a ++ rest)) =
                 "/"%char :: MYID :: a ++ "!"%char :: tl).
  { rewrite firstn_app.
    rewrite firstn_all2 by exact Hlen.
    unfold encode. cbn [app].
    change ("/"%char :: MYID :: (a ++ ["!"%char]) ++
            firstn (n - length ("/"%char :: MYID :: a ++ ["!"%char])) rest)
      with (["/"%char; MYID] ++ (a ++ ["!"%char]) ++
            firstn (n - length ("/"%char :: MYID :: a ++ ["!"%char])) rest).
    rewrite until_nul_app by (repeat constructor; discriminate).
    rewrite <- app_assoc, until_nul_app by exact Hf.
    cbn [app until_nul]. change (is_nul "!") with false. cbv iota.
    eexists. reflexivity. }
  destruct Ev as [tl ->].
  cbn [index_of]. change (Ascii.eqb "/" "/") with true. cbv iota.
  cbn [skipn index_of]. change (Ascii.eqb "/" "!") with false.
  change (Ascii.eqb MYID "!") with false. cbv iota.
  rewrite index_of_app_first by exact Hn. cbn [option_map nth_error].
  change (Ascii.eqb MYID MYID) with true. cbv iota.
  f_equal. replace (S (S (length a)) - 2)%nat with (length a) by lia.
  cbn [Nat.add skipn].
  rewrite firstn_app, firstn_all, Nat.sub_diag. cbn [firstn]. apply app_nil_r.
Qed.

End RoundTrip.

(** C6 as it is stated fails: a payload that holds ['!'] does not come
    back; the extractor ends the frame at the first ['!']. *)
Lemma C6_counterexample :
  ~ (forall a : list ascii,
       exists buf' p,
         trim_RS485_command (encode a) (Z.of_nat (length (encode a)))
           = Some (buf', p) /\
         c_str_at buf' p = Some a).
Proof.
  intros H. destruct (H (chars "L 1!")) as (buf' & p & E & Hc).
  vm_compute in E. inversion E; subst buf' p. vm_compute in Hc. discriminate Hc.
Qed.

(** C6, amended.  For every payload [a] that holds neither ['!'] nor a zero
    byte, the frame ['/'] ['N'] [a] ['!'], alone or followed by other
    bytes in a buffer of at most 80 bytes, is decoded by the extractor to
    [a] unchanged. *)
Theorem C6_round_trip (a rest : list ascii) :
  nul_free a ->
  ~ In "!"%char a ->
  Z.of_nat (length (encode a ++ rest)) <= NBUFA ->
  exists buf',
    trim_RS485_command (encode a ++ rest)
      (Z.of_nat (length (encode a ++ rest))) = Some (buf', 2) /\
    c_str_at buf' 2 = Some a.
Proof.
  intros Hf Hn _.
  pose proof (trim_correct (encode a ++ rest)
                (Z.of_nat (length (encode a ++ rest)))) as H.
  rewrite Nat2Z.id in H.
  rewrite spec_extract_encode in H;
    [| exact Hf | exact Hn | rewrite length_app; lia].
  destruct H as (s & Hs & _ & Ht & Hsk & _);
    [unfold encode; cbn [app length]; lia | lia |].
  assert (s = 0%nat) as ->.
  { rewrite firstn_all in Hs. unfold encode in Hs. cbn [app until_nul] in Hs.
    change (is_nul "/") with false in Hs. cbn [index_of] in Hs.
    change (Ascii.eqb "/" "/") with true in Hs. now inversion Hs. }
  eexists. split; [exact Ht|].
  change 2 with (Z.of_nat (0 + 2)). rewrite c_str_at_nat, Hsk.
  now apply c_str_app.
Qed.

Lemma C6_witness :
  exists buf',
    trim_RS485_command (encode (chars "w 128,1") ++ [NUL; "x"%char])
      (Z.of_nat (length (encode (chars "w 128,1") ++ [NUL; "x"%char])))
      = Some (buf', 2) /\
    c_str_at buf' 2 = Some (chars "w 128,1").
Proof.
  apply (C6_round_trip (chars "w 128,1") [NUL; "x"%char]).
  - now apply nul_freeb_spec.
  - cbn. intuition discriminate.
  - unfold NBUFA. cbn. lia.
Defined.

(** ** Reply framing *)

Section ReplyLengths.

Implicit Types (l s tail acc : list ascii) (c : ascii) (st : state).







End ReplyLengths.



(** ** Argument conversion *)

(** C8 as it is stated fails: the token ["1x"] is not a number, and the
    conversion uses its leading digit, so the payload ["L 1x"] turns the
    LED on and is answered with ["/0L 1#\n"]. *)
Lemma C8_counterexample :
  ~ (forall (st : state) (cmdStr : Z) (tail tok : list ascii),
       length (bufB st) = Z.to_nat NBUFB ->
       c_str_at (bufA st) cmdStr = Some ("L"%char :: tail) ->
       first_token tail = Some tok ->
       is_number tok = false ->
       exists st',
         interpret_RS485_command st cmdStr = Some st' /\
         calls st' = calls st ++ [Call_uart1_putstr (chars "/0L 0#" ++ [LF])] /\
         GREENLED st' = 0 /\
         override_led st' = 0).
Proof.
  intros H.
  destruct (H (set_bufA (reset_state (fun _ => 0))
                 (line_buffer (chars "/NL 1x")))
              2 (chars " 1x") (chars "1x"))
    as (st' & E & _ & Hg & _); try reflexivity.
  assert (E1 : option_map GREENLED
                 (interpret_RS485_command
                    (set_bufA (reset_state (fun _ => 0))
                       (line_buffer (chars "/NL 1x"))) 2) = Some 1)
    by (vm_compute; reflexivity).
  rewrite E in E1. cbn [option_map] in E1. congruence.
Qed.

(** C8, amended.  The conversion of a token that does not begin with a
    number (after optional white space and an optional sign no digit
    follows) yields 0 and no error.  An ['L'] command whose first token is
    such a token (as in the payload ["L x"]) turns the LED off, clears the
    override flag and is answered with ["/0L 0#\n"], in which ["error"]
    does not occur. *)
Theorem C8_non_numeric_argument_is_zero
  (st : state) (cmdStr : Z) (tail tok : list ascii) :
  length (bufB st) = Z.to_nat NBUFB ->
  c_str_at (bufA st) cmdStr = Some ("L"%char :: tail) ->
  first_token tail = Some tok ->
  non_numeric tok = true ->
  atoi tok = 0 /\
  exists st',
    interpret_RS485_command st cmdStr = Some st' /\
    calls st' = calls st ++ [Call_uart1_putstr (chars "/0L 0#" ++ [LF])] /\
    GREENLED st' = 0 /\
    override_led st' = 0 /\
    contains (chars "error") (chars "/0L 0#" ++ [LF]) = false.
Proof.
  intros Hb Hstr Htok Hnn.
  pose proof (non_numeric_atoi tok Hnn) as H0. split; [exact H0|].
  destruct (c_str_at_Z _ _ _ Hstr) as (cmd & -> & Hat).
  pose proof (cstr_at_load _ _ _ Hat) as Hload. cbn [hd] in Hload.
  pose proof (cstr_at_tail _ _ _ _ Hat) as Htail.
  assert (Hb1 : length (bufB (activity_led st 1)) = 268%nat)
    by now rewrite activity_led_bufB.
  rewrite <- (activity_led_bufA st 1) in Htail.
  destruct (case_L_ok _ cmd tail Hb1 Htail) as (st2 & E & P).
  rewrite Htok, H0 in P. change (Z.land 0 1) with 0 in P.
  destruct (interpret_ok st (Z.of_nat cmd) "L"%char st2 _ _ _ _ Hload E P)
    as (st' & E' & P1 & P2 & P3 & _).
  exists st'. repeat split; assumption.
Qed.

Lemma C8_witness :
  atoi (chars "x") = 0 /\
  exists st',
    interpret_RS485_command
      (set_bufA (reset_state (fun _ => 0)) (line_buffer (chars "/NL x")))
      2 = Some st' /\
    calls st' = [Call_uart1_putstr (chars "/0L 0#" ++ [LF])] /\
    GREENLED st' = 0 /\
    override_led st' = 0 /\
    contains (chars "error") (chars "/0L 0#" ++ [LF]) = false.
Proof.
  apply (C8_non_numeric_argument_is_zero
           (set_bufA (reset_state (fun _ => 0)) (line_buffer (chars "/NL x")))
           2 (chars " x") (chars "x"));
    reflexivity.
Defined.

(** ** The LED and the override flag *)

Section LedInvariant.

Implicit Types (line : buffer) (st : state).

(** Whatever the line, the loop body finishes, keeps the size of [bufB] and
    keeps the LED equal to the override flag. *)
Lemma poll_iteration_inv st m line :
  length line = 80%nat ->
  length (bufB st) = 268%nat ->
  exists st', poll_iteration st m line = Some st' /\
    length (bufB st') = 268%nat /\ (led_inv st -> led_inv st').
Proof.
  intros Hl Hb.
  destruct (spec_extract line 80) as [[|c s]|] eqn:Hspec.
  - destruct (poll_discard st m line Hl (or_intror Hspec))
      as (st' & E & _ & H2 & H3 & _ & _ & H6).
    exists st'. split; [exact E|]. split; [now rewrite H6|].
    unfold led_inv. now rewrite H2, H3.
  - destruct (Z.ltb_spec 0 m) as [Hm|Hm].
    + destruct (poll_reply st m line c s Hm Hl Hb Hspec)
        as (st' & cs & reply & E & _ & _ & _ & _ & H5 & H6).
      now exists st'.
    + unfold poll_iteration. destruct (Z.gtb_spec m 0); [lia|].
      eexists. split; [reflexivity|]. now split.
  - destruct (poll_discard st m line Hl (or_introl Hspec))
      as (st' & E & _ & H2 & H3 & _ & _ & H6).
    exists st'. split; [exact E|]. split; [now rewrite H6|].
    unfold led_inv. now rewrite H2, H3.
Qed.

Lemma poll_loop_inv rx : forall st,
  Forall (fun r => length (snd r) = 80%nat) rx ->
  length (bufB st) = 268%nat ->
  led_inv st ->
  exists st', poll_loop st rx = Some st' /\ led_inv st'.
Proof.
  induction rx as [|[m line] rx IH]; intros st Hrx Hb Hinv.
  - now exists st.
  - inversion Hrx as [|? ? Hl Hrx']; subst. cbn [snd] in Hl.
    destruct (poll_iteration_inv st m line Hl Hb) as (st1 & E & Hb1 & Hi).
    cbn [poll_loop]. rewrite E. apply IH; auto.
Qed.

End LedInvariant.

(** C9.  From a state with the LED off and the override flag clear, as the
    loop is entered, every sequence of received lines is processed without
    a fault, and after it, hence after every call of the interpreter made
    on the way, the LED output equals the override flag.  The interpreter
    itself, wherever it is given a payload, keeps the LED equal to the
    flag. *)
Theorem C9_led_follows_override
  (st0 : state) (rx : list (Z * buffer)) :
  GREENLED st0 = 0 ->
  override_led st0 = 0 ->
  length (bufB st0) = Z.to_nat NBUFB ->
  Forall (fun r => length (snd r) = Z.to_nat NBUFA) rx ->
  (exists st, poll_loop st0 rx = Some st /\ GREENLED st = override_led st) /\
  (forall st (cmd : nat) c s,
     length (bufB st) = Z.to_nat NBUFB ->
     cstr_at (bufA st) cmd (c :: s) ->
     GREENLED st = override_led st ->
     exists st',
       interpret_RS485_command st (Z.of_nat cmd) = Some st' /\
       GREENLED st' = override_led st').
Proof.
  intros Hg Ho Hb Hrx. split.
  - apply poll_loop_inv; [exact Hrx | exact Hb |].
    unfold led_inv. now rewrite Hg, Ho.
  - intros st cmd c s Hb' Hat Hinv.
    destruct (interpret_total st cmd c s Hb' Hat)
      as (st' & _ & _ & E & _ & _ & _ & _ & _ & Hi).
    exists st'. split; [exact E | now apply Hi].
Qed.

Lemma C9_witness :
  exists st,
    poll_loop (reset_state (fun _ => 0))
      [(5, line_buffer (chars "/NL1!")); (4, line_buffer (chars "/Nv!"));
       (4, line_buffer (chars "/NL!")); (6, line_buffer (chars "/NL 0!"))]
    = Some st /\
    GREENLED st = override_led st.
Proof.
  apply (C9_led_follows_override (reset_state (fun _ => 0))
           [(5, line_buffer (chars "/NL1!")); (4, line_buffer (chars "/Nv!"));
            (4, line_buffer (chars "/NL!")); (6, line_buffer (chars "/NL 0!"))]);
    try reflexivity.
  repeat constructor.
Defined.

(** ** Reference level *)

(** C10.  A ['w'] command with a level token and an on/off flag that is
    enabled (absent, or converted to a nonzero [int8_t]) never gets an
    error for its level: [set_VREF_on] is called once, with the converted
    level clamped to 0..255, so that the cast to [uint8_t] changes nothing;
    the level register receives that value, and the reply reports it and
    does not contain ["error"]. *)
Theorem C10_level_is_clamped
  (st : state) (cmdStr : Z) (tail tok : list ascii) :
  length (bufB st) = Z.to_nat NBUFB ->
  c_str_at (bufA st) cmdStr = Some ("w"%char :: tail) ->
  first_token tail = Some tok ->
  onOffFlag_of tail <> 0 ->
  let level := clamp 0 255 (atoi tok) in
  let reply := chars "/0w VREF on level=" ++ fmt_d level ++ chars "#" ++ [LF] in
  0 <= level <= 255 /\
  wrap_unsigned 8 level = level /\
  atoi (fmt_d level) = level /\
  contains (chars "error") reply = false /\
  exists st',
    interpret_RS485_command st cmdStr = Some st' /\
    calls st' = calls st ++ [Call_set_VREF_on level; Call_uart1_putstr reply] /\
    DAC1DATL (vref st') = level.
Proof.
  intros Hb Hstr Htok Hflag level reply.
  pose proof (clamp_range (atoi tok)) as Hr. fold level in Hr.
  split; [exact Hr|].
  split; [apply wrap_unsigned_small; change (2 ^ 8) with 256; lia|].
  split; [now apply atoi_fmt_d_byte|].
  split; [now apply text_w_on_no_error|].
  destruct (c_str_at_Z _ _ _ Hstr) as (cmd & -> & Hat).
  pose proof (cstr_at_load _ _ _ Hat) as Hload. cbn [hd] in Hload.
  pose proof (cstr_at_tail _ _ _ _ Hat) as Htail.
  assert (Hb1 : length (bufB (activity_led st 1)) = 268%nat)
    by now rewrite activity_led_bufB.
  rewrite <- (activity_led_bufA st 1) in Htail.
  destruct (case_w_ok _ cmd tail Hb1 Htail) as (st2 & E & P).
  rewrite Htok in P.
  destruct (Z.eqb_spec (onOffFlag_of tail) 0) as [|_]; [contradiction|].
  destruct (interpret_ok st (Z.of_nat cmd) "w"%char st2 _ _ _ _ Hload E P)
    as (st' & E' & P1 & _ & _ & P4 & _).
  exists st'. split; [exact E'|]. split; [exact P1|]. now rewrite P4.
Qed.

Lemma C10_witness :
  0 <= 255 <= 255 /\
  wrap_unsigned 8 255 = 255 /\
  atoi (fmt_d 255) = 255 /\
  contains (chars "error") (chars "/0w VREF on level=255#" ++ [LF]) = false /\
  exists st',
    interpret_RS485_command
      (set_bufA (reset_state (fun _ => 0)) (line_buffer (chars "/Nw 300")))
      2 = Some st' /\
    calls st' =
      [Call_set_VREF_on 255;
       Call_uart1_putstr (chars "/0w VREF on level=255#" ++ [LF])] /\
    DAC1DATL (vref st') = 255.
Proof.
  apply (C10_level_is_clamped
           (set_bufA (reset_state (fun _ => 0)) (line_buffer (chars "/Nw 300")))
           2 (chars " 300") (chars "300"));
    first [reflexivity | discriminate].
Defined.

(** * Further properties of the code *)

(** ** [find_char] *)

Section FindChar.

Implicit Types (buf : buffer) (c x : ascii).

Lemma find_char_loop_first buf c : forall fuel (i : nat),
  (i + fuel <= length buf)%nat ->
  exists r, find_char_loop fuel buf (Z.of_nat i) c = Some r /\
    ((r = -1 /\
      forall j, (i <= j < i + fuel)%nat -> nth_error buf j = Some c ->
        c = NUL \/ exists k, (i <= k < j)%nat /\ nth_error buf k = Some NUL) \/
     (exists n : nat, r = Z.of_nat n /\ (i <= n < i + fuel)%nat /\
        nth_error buf n = Some c /\ c <> NUL /\
        forall j, (i <= j < n)%nat ->
          exists x, nth_error buf j = Some x /\ x <> c /\ x <> NUL)).
Proof.
  induction fuel as [|fuel IH]; intros i Hlen; cbn [find_char_loop].
  - exists (-1). split; [reflexivity|]. left. split; [reflexivity|]. intros j Hj. lia.
  - rewrite load_of_nat.
    destruct (nth_error_in_range buf i) as [x Hx]; [lia|]. rewrite Hx.
    destruct (is_nul x) eqn:En.
    + apply is_nul_true in En. subst x.
      exists (-1). split; [reflexivity|]. left. split; [reflexivity|].
      intros j Hj Hc. destruct (Nat.eq_dec j i) as [->|Hne].
      * left. congruence.
      * right. exists i. split; [lia | exact Hx].
    + apply is_nul_false in En.
      destruct (Ascii.eqb_spec x c) as [->|Hxc].
      * exists (Z.of_nat i). split; [reflexivity|]. right.
        exists i. repeat split; try assumption; try lia.
      * replace (Z.of_nat i + 1) with (Z.of_nat (S i)) by lia.
        destruct (IH (S i)) as (r & E & Hr); [lia|].
        exists r. split; [exact E|].
        destruct Hr as [[-> Hnone] | (n & -> & Hn & Hc & Hcn & Hbefore)].
        -- left. split; [reflexivity|]. intros j Hj Hc.
           destruct (Nat.eq_dec j i) as [->|Hne]; [congruence|].
           destruct (Hnone j ltac:(lia) Hc) as [H0 | (k & Hk & Hk0)];
             [now left|]. right. exists k. split; [lia | exact Hk0].
        -- right. exists n. repeat split; try assumption; try lia.
           intros j Hj. destruct (Nat.eq_dec j i) as [->|Hne].
           ++ exists x. now repeat split.
           ++ apply Hbefore. lia.
Qed.

End FindChar.

(** X1.  On a range that lies inside the array, [find_char] always returns,
    and what it returns is either the index of the first occurrence of [c]
    in the range, no zero byte and no [c] standing before it, or -1, in
    which case every [c] of the range stands behind a zero byte (or [c] is
    the zero byte itself, which is never found). *)
Theorem find_char_first_occurrence
  (buf : buffer) (start : nat) (end_ : Z) (c : ascii) :
  end_ < Z.of_nat (length buf) ->
  (start <= length buf)%nat ->
  exists r, find_char buf (Z.of_nat start) end_ c = Some r /\
    ((r = -1 /\
      forall j : nat, Z.of_nat start <= Z.of_nat j <= end_ ->
        nth_error buf j = Some c ->
        c = NUL \/
        exists k : nat, (start <= k < j)%nat /\ nth_error buf k = Some NUL) \/
     (exists n : nat, r = Z.of_nat n /\
        Z.of_nat start <= Z.of_nat n <= end_ /\
        nth_error buf n = Some c /\ c <> NUL /\
        forall j : nat, (start <= j < n)%nat ->
          exists x, nth_error buf j = Some x /\ x <> c /\ x <> NUL)).
Proof.
  intros Hend Hstart. unfold find_char.
  set (fuel := Z.to_nat (end_ - Z.of_nat start + 1)).
  destruct (find_char_loop_first buf c fuel start) as (r & E & Hr);
    [unfold fuel; lia|].
  exists r. split; [exact E|].
  destruct Hr as [[-> Hnone] | (n & -> & Hn & Hc & Hcn & Hbefore)].
  - left. split; [reflexivity|]. intros j Hj Hc.
    apply (Hnone j); [unfold fuel; lia | exact Hc].
  - right. exists n. repeat split; try assumption; unfold fuel in Hn; lia.
Qed.

Lemma find_char_first_occurrence_witness :
  exists r, find_char (chars "ab/N!") (Z.of_nat 1) 4 "!" = Some r /\
    ((r = -1 /\
      forall j : nat, Z.of_nat 1 <= Z.of_nat j <= 4 ->
        nth_error (chars "ab/N!") j = Some "!"%char ->
        "!"%char = NUL \/
        exists k : nat, (1 <= k < j)%nat /\
          nth_error (chars "ab/N!") k = Some NUL) \/
     (exists n : nat, r = Z.of_nat n /\
        Z.of_nat 1 <= Z.of_nat n <= 4 /\
        nth_error (chars "ab/N!") n = Some "!"%char /\ "!"%char <> NUL /\
        forall j : nat, (1 <= j < n)%nat ->
          exists x, nth_error (chars "ab/N!") j = Some x /\
            x <> "!"%char /\ x <> NUL)).
Proof.
  apply (find_char_first_occurrence (chars "ab/N!") 1 4 "!"); cbn; lia.
Defined.

(** ** [trim_RS485_command] *)

Section TrimFurther.

Implicit Types (buf pre rest a tl : list ascii) (c x : ascii).

Lemma index_of_firstn c l : forall k m,
  index_of c l = Some k ->
  index_of c (firstn m l) = if (k <? m)%nat then Some k else None.
Proof.
  induction l as [|x l IH]; intros k m H; [discriminate|].
  cbn [index_of] in H. destruct m as [|m].
  - cbn [firstn index_of]. now destruct (k <? 0)%nat eqn:E; [apply Nat.ltb_lt in E; lia|].
  - cbn [firstn index_of]. destruct (Ascii.eqb x c).
    + now inversion H.
    + destruct (index_of c l) as [k'|]; [|discriminate].
      inversion H; subst k. rewrite (IH k' m eq_refl).
      change (S k' <? S m)%nat with (k' <? m)%nat.
      now destruct (k' <? m)%nat.
Qed.

(** The valid bytes of a buffer from which a frame was taken are the valid
    bytes before the ['!']. *)
Lemma valid_after_store buf (n e : nat) :
  (e < n)%nat -> (n <= length buf)%nat ->
  (e <= length (until_nul (firstn n buf)))%nat ->
  until_nul (firstn n (upd buf e NUL)) = firstn e (until_nul (firstn n buf)).
Proof.
  intros He Hn Hv. unfold upd.
  assert (Hle : length (firstn e buf) = e) by (rewrite length_firstn; lia).
  rewrite firstn_app, Hle, firstn_firstn.
  replace (Nat.min n e) with e by lia.
  destruct (n - e)%nat as [|d] eqn:Ed; [lia|]. cbn [firstn].
  destruct (until_nul_prefix (firstn n buf)) as [r Er].
  assert (Epre : firstn e buf = firstn e (until_nul (firstn n buf))).
  { assert (E0 : firstn e buf = firstn e (firstn n buf))
      by (rewrite firstn_firstn; f_equal; lia).
    rewrite E0, Er at 1. rewrite firstn_app.
    replace (e - length (until_nul (firstn n buf)))%nat with 0%nat by lia.
    cbn [firstn]. apply app_nil_r. }
  rewrite Epre, until_nul_app
    by (apply nul_free_firstn, until_nul_free).
  cbn [until_nul]. change (is_nul NUL) with true. cbv iota. apply app_nil_r.
Qed.

Lemma spec_extract_shape buf n pre a tl :
  until_nul (firstn n buf) = pre ++ "/"%char :: MYID :: a ++ "!"%char :: tl ->
  ~ In "/"%char pre -> ~ In "!"%char a ->
  spec_extract buf n = Some a.
Proof.
  intros Ev Hpre Ha. unfold spec_extract. rewrite Ev.
  rewrite index_of_app_first by exact Hpre.
  rewrite skipn_exact. cbn [index_of].
  change (Ascii.eqb "/" "!") with false.
  change (Ascii.eqb MYID "!") with false. cbv iota.
  rewrite index_of_app_first by exact Ha. cbn [option_map].
  replace (S (length pre)) with (length (pre ++ ["/"%char])) by
    (rewrite length_app; cbn [length]; lia).
  replace (pre ++ "/"%char :: MYID :: a ++ "!"%char :: tl)
    with ((pre ++ ["/"%char]) ++ MYID :: a ++ "!"%char :: tl)
    by now rewrite <- app_assoc.
  rewrite nth_error_exact.
  change (Ascii.eqb MYID MYID) with true. cbv iota. f_equal.
  replace (length pre + 2)%nat
    with (length ((pre ++ ["/"%char]) ++ [MYID]))
    by (rewrite !length_app; cbn [length]; lia).
  replace ((pre ++ ["/"%char]) ++ MYID :: a ++ "!"%char :: tl)
    with (((pre ++ ["/"%char]) ++ [MYID]) ++ a ++ "!"%char :: tl)
    by now rewrite <- !app_assoc.
  rewrite skipn_exact.
  replace (S (S (length a)) - 2)%nat with (length a) by lia.
  rewrite firstn_app, firstn_all, Nat.sub_diag. cbn [firstn]. apply app_nil_r.
Qed.

End TrimFurther.

(** X2.  On a non-empty array, with a byte count within it,
    [trim_RS485_command] always returns; it changes the array in exactly
    one place, where it writes a zero byte, and the pointer it returns is
    the start of a C string that ends at that zero byte.  So the result is
    a terminated string even when the buffer received held no zero byte. *)
Theorem trim_writes_one_terminator (buf : buffer) (nbytes : Z) :
  (0 < length buf)%nat ->
  0 <= nbytes <= Z.of_nat (length buf) ->
  exists buf' p (k : nat) s,
    trim_RS485_command buf nbytes = Some (buf', p) /\
    (k < length buf)%nat /\
    buf' = upd buf k NUL /\
    length buf' = length buf /\
    c_str_at buf' p = Some s /\
    p + Z.of_nat (length s) = Z.of_nat k.
Proof.
  intros Hpos Hn. pose proof (trim_correct buf nbytes Hpos Hn) as H.
  destruct (spec_extract buf (Z.to_nat nbytes)) as [a|].
  - destruct H as (s & _ & Hlt & Ht & Hsk & Hfree).
    exists (upd buf (s + 2 + length a) NUL), (Z.of_nat s + 2),
           (s + 2 + length a)%nat, a.
    split; [exact Ht|]. split; [lia|]. split; [reflexivity|].
    split; [apply length_upd; lia|]. split; [|lia].
    replace (Z.of_nat s + 2) with (Z.of_nat (s + 2)) by lia.
    rewrite c_str_at_nat, Hsk. now apply c_str_app.
  - exists (upd buf 0 NUL), 0, 0%nat, [].
    split; [exact H|]. split; [exact Hpos|]. split; [reflexivity|].
    split; [now apply length_upd|]. split; reflexivity.
Qed.

Lemma trim_writes_one_terminator_witness :
  exists buf' p (k : nat) s,
    trim_RS485_command (chars "x/Nab!y") 7 = Some (buf', p) /\
    (k < length (chars "x/Nab!y"))%nat /\
    buf' = upd (chars "x/Nab!y") k NUL /\
    length buf' = length (chars "x/Nab!y") /\
    c_str_at buf' p = Some s /\
    p + Z.of_nat (length s) = Z.of_nat k.
Proof.
  apply (trim_writes_one_terminator (chars "x/Nab!y") 7); cbn; lia.
Defined.

(** X3.  On an array of no bytes the function faults, whatever the count:
    every path through it reads or writes [buf[0]]. *)
Theorem trim_needs_a_byte (nbytes : Z) : trim_RS485_command [] nbytes = None.
Proof.
  unfold trim_RS485_command, find_char.
  destruct (Z.to_nat (nbytes - 1 - 0 + 1)); reflexivity.
Qed.

(** X4.  A frame is taken from a buffer once: whatever the first call
    returned, a second call on the buffer it left finds no frame and returns
    the empty string at [buf[0]]. *)
Theorem trim_twice_finds_nothing (buf buf' : buffer) (nbytes p : Z) :
  (0 < length buf)%nat ->
  0 <= nbytes <= Z.of_nat (length buf) ->
  trim_RS485_command buf nbytes = Some (buf', p) ->
  trim_RS485_command buf' nbytes = Some (upd buf' 0 NUL, 0).
Proof.
  intros Hpos Hn Ht.
  pose proof (trim_correct buf nbytes Hpos Hn) as H.
  assert (Hnone : spec_extract buf' (Z.to_nat nbytes) = None).
  { destruct (spec_extract buf (Z.to_nat nbytes)) as [a|] eqn:Hspec.
    - destruct H as (s & Hs & Hlt & Ht' & _).
      rewrite Ht in Ht'. inversion Ht'; subst buf' p. clear Ht'.
      destruct (spec_extract_Some _ _ _ Hspec)
        as (s' & k & Hs' & Hk & _ & Ha & Hk2 & Hsk).
      rewrite Hs in Hs'. inversion Hs'; subst s'. clear Hs'.
      assert (Hla : length a = (k - 2)%nat).
      { subst a. rewrite length_firstn, length_skipn. lia. }
      replace (s + 2 + length a)%nat with (s + k)%nat by lia.
      unfold spec_extract.
      rewrite valid_after_store by lia.
      rewrite (index_of_firstn _ _ _ (s + k) Hs).
      destruct (Nat.ltb_spec s (s + k)); [|lia].
      rewrite skipn_firstn_comm.
      replace (s + k - s)%nat with k by lia.
      rewrite (index_of_firstn _ _ _ k Hk).
      now rewrite Nat.ltb_irrefl.
    - rewrite Ht in H. inversion H; subst buf' p.
      unfold spec_extract, upd. cbn [firstn app].
      destruct (Z.to_nat nbytes); reflexivity. }
  assert (Hl : length buf' = length buf).
  { destruct (spec_extract buf (Z.to_nat nbytes)) as [a|].
    - destruct H as (s & _ & Hlt & Ht' & _).
      rewrite Ht in Ht'. inversion Ht'. apply length_upd. lia.
    - rewrite Ht in H. inversion H. now apply length_upd. }
  pose proof (trim_correct buf' nbytes) as H'.
  rewrite Hnone in H'. apply H'; lia.
Qed.

Lemma trim_twice_finds_nothing_witness :
  trim_RS485_command (chars "/NL1!" ++ [NUL]) 6
    = Some (upd (chars "/NL1!" ++ [NUL]) 4 NUL, 2) /\
  trim_RS485_command (upd (chars "/NL1!" ++ [NUL]) 4 NUL) 6
    = Some (upd (upd (chars "/NL1!" ++ [NUL]) 4 NUL) 0 NUL, 0).
Proof.
  split; [reflexivity|].
  apply (trim_twice_finds_nothing (chars "/NL1!" ++ [NUL]) _ 6 2);
    [cbn; lia | cbn; lia | reflexivity].
Defined.

(** X5.  Bytes before the first ['/'] are skipped, even when ['!'] is among
    them, and bytes after the closing ['!'] are not looked at: from
    [pre / N a ! rest], where [pre] holds no ['/'] and no zero byte and [a]
    holds no ['!'] and no zero byte, the payload returned is [a]. *)
Theorem trim_skips_leading_noise (pre a rest : list ascii) :
  nul_free pre -> ~ In "/"%char pre ->
  nul_free a -> ~ In "!"%char a ->
  Z.of_nat (length (pre ++ encode a ++ rest)) <= NBUFA ->
  exists buf',
    trim_RS485_command (pre ++ encode a ++ rest)
      (Z.of_nat (length (pre ++ encode a ++ rest)))
      = Some (buf', Z.of_nat (length pre) + 2) /\
    c_str_at buf' (Z.of_nat (length pre) + 2) = Some a.
Proof.
  intros Hp Hps Hf Hn _.
  set (buf := pre ++ encode a ++ rest).
  pose proof (trim_correct buf (Z.of_nat (length buf))) as H.
  rewrite Nat2Z.id in H.
  assert (Ev : exists tl, until_nul (firstn (length buf) buf) =
                 pre ++ "/"%char :: MYID :: a ++ "!"%char :: tl).
  { rewrite firstn_all. unfold buf, encode.
    rewrite until_nul_app by exact Hp.
    change (("/"%char :: MYID :: a ++ ["!"%char]) ++ rest)
      with (["/"%char; MYID] ++ (a ++ ["!"%char]) ++ rest).
    rewrite until_nul_app by (repeat constructor; discriminate).
    rewrite <- app_assoc, until_nul_app by exact Hf.
    cbn [app until_nul]. change (is_nul "!") with false. cbv iota.
    eexists. reflexivity. }
  destruct Ev as [tl Ev].
  rewrite (spec_extract_shape _ _ _ _ _ Ev Hps Hn) in H.
  destruct H as (s & Hs & _ & Ht & Hsk & _).
  { unfold buf, encode. rewrite !length_app. cbn [length]. lia. }
  { lia. }
  rewrite Ev, index_of_app_first in Hs by exact Hps.
  inversion Hs; subst s.
  eexists. split; [exact Ht|].
  replace (Z.of_nat (length pre) + 2) with (Z.of_nat (length pre + 2)) by lia.
  rewrite c_str_at_nat, Hsk. now apply c_str_app.
Qed.

Lemma trim_skips_leading_noise_witness :
  exists buf',
    trim_RS485_command (chars "ok!" ++ encode (chars "L 1") ++ chars "/Nv!")
      (Z.of_nat (length (chars "ok!" ++ encode (chars "L 1") ++ chars "/Nv!")))
      = Some (buf', Z.of_nat (length (chars "ok!")) + 2) /\
    c_str_at buf' (Z.of_nat (length (chars "ok!")) + 2) = Some (chars "L 1").
Proof.
  apply (trim_skips_leading_noise (chars "ok!") (chars "L 1") (chars "/Nv!")).
  - now apply nul_freeb_spec.
  - cbn. intuition discriminate.
  - now apply nul_freeb_spec.
  - cbn. intuition discriminate.
  - unfold NBUFA. cbn. lia.
Defined.

(** X6.  The function looks at the first [nbytes] bytes only: two arrays
    that agree on them give the same pointer and the same command
    string. *)
Theorem trim_reads_only_valid_bytes (buf1 buf2 : buffer) (nbytes : Z) :
  (0 < length buf1)%nat -> (0 < length buf2)%nat ->
  0 <= nbytes <= Z.of_nat (length buf1) ->
  nbytes <= Z.of_nat (length buf2) ->
  firstn (Z.to_nat nbytes) buf1 = firstn (Z.to_nat nbytes) buf2 ->
  exists b1 b2 p s,
    trim_RS485_command buf1 nbytes = Some (b1, p) /\
    trim_RS485_command buf2 nbytes = Some (b2, p) /\
    c_str_at b1 p = Some s /\ c_str_at b2 p = Some s.
Proof.
  intros H1 H2 Hn1 Hn2 Heq.
  pose proof (trim_correct buf1 nbytes H1 Hn1) as T1.
  pose proof (trim_correct buf2 nbytes H2 ltac:(lia)) as T2.
  assert (Hs : spec_extract buf1 (Z.to_nat nbytes) =
               spec_extract buf2 (Z.to_nat nbytes)).
  { unfold spec_extract. now rewrite Heq. }
  rewrite <- Hs in T2. rewrite <- Heq in T2.
  destruct (spec_extract buf1 (Z.to_nat nbytes)) as [a|].
  - destruct T1 as (s1 & Hs1 & _ & Ht1 & Hsk1 & Hf).
    destruct T2 as (s2 & Hs2 & _ & Ht2 & Hsk2 & _).
    rewrite Hs1 in Hs2. inversion Hs2; subst s2.
    do 2 eexists. exists (Z.of_nat s1 + 2), a.
    split; [exact Ht1|]. split; [exact Ht2|].
    replace (Z.of_nat s1 + 2) with (Z.of_nat (s1 + 2)) by lia.
    rewrite !c_str_at_nat, Hsk1, Hsk2. split; now apply c_str_app.
  - do 2 eexists. exists 0, []. split; [exact T1|]. split; [exact T2|].
    split; reflexivity.
Qed.

Lemma trim_reads_only_valid_bytes_witness :
  exists b1 b2 p s,
    trim_RS485_command (chars "/Nv!abc") 4 = Some (b1, p) /\
    trim_RS485_command (chars "/Nv!/NL1!") 4 = Some (b2, p) /\
    c_str_at b1 p = Some s /\ c_str_at b2 p = Some s.
Proof.
  apply (trim_reads_only_valid_bytes (chars "/Nv!abc") (chars "/Nv!/NL1!") 4);
    first [reflexivity | cbn; lia].
Defined.

(** ** [interpret_RS485_command] *)

Section InterpretFurther.

Implicit Types (l s tail tok needle hay : list ascii) (c x : ascii)
  (st : state).

Lemma contains_head_in x needle hay :
  contains (x :: needle) hay = true -> In x hay.
Proof.
  induction hay as [|y hay IH]; cbn [contains is_prefix]; [discriminate|].
  intros H. apply orb_true_iff in H. destruct H as [H|H].
  - apply andb_true_iff in H. destruct H as [H _].
    apply Ascii.eqb_eq in H. now left.
  - right. now apply IH.
Qed.

Lemma contains_app_r needle l hay :
  contains needle hay = true -> contains needle (l ++ hay) = true.
Proof.
  intros H. induction l as [|y l IH]; [exact H|].
  cbn [app contains]. rewrite IH. apply orb_true_r.
Qed.

Lemma text_default_has_error c : contains (chars "error") (text_default c) = true.
Proof.
  unfold text_default.
  change (chars "/0" ++ [c] ++ chars " error: Unknown command#" ++ [LF])
    with (("/"%char :: "0"%char :: c :: [" "%char]) ++
          chars "error: Unknown command#" ++ [LF]).
  now apply contains_app_r.
Qed.

Lemma text_a_no_error p8 p2 p4 p5 p6 :
  contains (chars "error") (text_a p8 p2 p4 p5 p6) = false.
Proof.
  destruct (contains (chars "error") (text_a p8 p2 p4 p5 p6)) eqn:E;
    [|reflexivity].
  exfalso. apply contains_head_in in E. unfold text_a in E.
  assert (Hd : forall n, ~ In "e"%char (fmt_u n)).
  { intros n Hi. pose proof (fmt_u_isdigit n) as Hf.
    rewrite Forall_forall in Hf. specialize (Hf _ Hi). discriminate Hf. }
  repeat (apply in_app_or in E; destruct E as [E|E];
          [first [now apply Hd in E | cbn in E; intuition discriminate]|]).
  cbn in E. intuition discriminate.
Qed.

Lemma text_L_no_error i : i = 0 \/ i = 1 -> contains (chars "error") (text_L i) = false.
Proof. intros [-> | ->]; reflexivity. Qed.

(** What a call on the payload [c :: tail] starts from. *)
Lemma interpret_setup st (cmdStr : Z) c tail :
  length (bufB st) = 268%nat ->
  c_str_at (bufA st) cmdStr = Some (c :: tail) ->
  exists cmd : nat,
    cmdStr = Z.of_nat cmd /\
    load (bufA st) (Z.of_nat cmd) = Some c /\
    length (bufB (activity_led st 1)) = 268%nat /\
    cstr_at (bufA (activity_led st 1)) (S cmd) tail /\
    c <> NUL.
Proof.
  intros Hb Hstr.
  destruct (c_str_at_Z _ _ _ Hstr) as (cmd & -> & Hat).
  exists cmd. split; [reflexivity|].
  split; [apply (cstr_at_load _ _ _ Hat)|].
  split; [now rewrite activity_led_bufB|].
  split; [rewrite activity_led_bufA; now apply (cstr_at_tail _ _ c)|].
  destruct Hat as (_ & _ & _ & _ & Hf). now inversion Hf.
Qed.

Lemma mem_char_commands c :
  c <> "v"%char -> c <> "L"%char -> c <> "a"%char -> c <> "w"%char ->
  mem_char c (chars "vLaw") = false.
Proof.
  intros Hv HL Ha Hw. apply Ascii.eqb_neq in Hv, HL, Ha, Hw.
  unfold mem_char. cbn [chars list_ascii_of_string existsb].
  now rewrite Hv, HL, Ha, Hw.
Qed.

Lemma activity_led_calls st v : calls (activity_led st v) = calls st.
Proof. unfold activity_led. now destruct (override_led st =? 0). Qed.

Lemma activity_led_conversions st v :
  conversions (activity_led st v) = conversions st.
Proof. unfold activity_led. now destruct (override_led st =? 0). Qed.

Lemma activity_led_feed st v : ADRES_feed (activity_led st v) = ADRES_feed st.
Proof. unfold activity_led. now destruct (override_led st =? 0). Qed.

Lemma activity_led_ADPCH st v : ADPCH (activity_led st v) = ADPCH st.
Proof. unfold activity_led. now destruct (override_led st =? 0). Qed.

Lemma land_1_mod n : Z.land n 1 = n mod 2.
Proof. change 1 with (Z.ones 1). now rewrite Z.land_ones by lia. Qed.

End InterpretFurther.

(** X7.  The word ["error"] marks exactly the failures.  Whatever the
    payload, the interpreter sends one reply, and ["error"] occurs in it
    if and only if the command character is unknown or an ['L'] or ['w']
    command comes without an argument. *)
Theorem error_word_marks_failures
  (st : state) (cmdStr : Z) (c : ascii) (tail : list ascii) :
  length (bufB st) = Z.to_nat NBUFB ->
  c_str_at (bufA st) cmdStr = Some (c :: tail) ->
  exists st' reply,
    interpret_RS485_command st cmdStr = Some st' /\
    replies (calls st') = replies (calls st) ++ [reply] /\
    contains (chars "error") reply = is_failure c tail.
Proof.
  intros Hb Hstr.
  destruct (interpret_setup st cmdStr c tail Hb Hstr)
    as (cmd & -> & Hload & Hb1 & Htail & Hnul).
  destruct (Ascii.eqb_spec c "v") as [->|Hv].
  { destruct (case_v_ok _ Hb1) as (st2 & E & P).
    destruct (interpret_ok st (Z.of_nat cmd) "v"%char st2 _ _ _ _ Hload E P)
      as (st' & E' & P1 & _).
    exists st', text_v. split; [exact E'|].
    split; [now rewrite P1, replies_app | reflexivity]. }
  destruct (Ascii.eqb_spec c "L") as [->|HL].
  { destruct (case_L_ok _ cmd tail Hb1 Htail) as (st2 & E & P).
    unfold is_failure. destruct (first_token tail) as [tok|].
    - destruct (interpret_ok st (Z.of_nat cmd) "L"%char st2 _ _ _ _ Hload E P)
        as (st' & E' & P1 & _).
      exists st', (text_L (Z.land (atoi tok) 1)). split; [exact E'|].
      split; [now rewrite P1, replies_app|].
      rewrite text_L_no_error by apply land_1_cases. reflexivity.
    - destruct (interpret_ok st (Z.of_nat cmd) "L"%char st2 _ _ _ _ Hload E P)
        as (st' & E' & P1 & _).
      exists st', text_L_error. split; [exact E'|].
      split; [now rewrite P1, replies_app | reflexivity]. }
  destruct (Ascii.eqb_spec c "a") as [->|Ha].
  { destruct (case_a_ok _ Hb1) as (st2 & p8 & p2 & p4 & p5 & p6 & E & P & _).
    destruct (interpret_ok st (Z.of_nat cmd) "a"%char st2 _ _ _ _ Hload E P)
      as (st' & E' & P1 & _).
    exists st', (text_a p8 p2 p4 p5 p6). split; [exact E'|].
    split; [now rewrite P1, replies_app|].
    rewrite text_a_no_error. reflexivity. }
  destruct (Ascii.eqb_spec c "w") as [->|Hw].
  { destruct (case_w_ok _ cmd tail Hb1 Htail) as (st2 & E & P).
    unfold is_failure.
    destruct (first_token tail) as [tok|];
      [destruct (onOffFlag_of tail =? 0)|].
    - destruct (interpret_ok st (Z.of_nat cmd) "w"%char st2 _ _ _ _ Hload E P)
        as (st' & E' & P1 & _).
      exists st', text_w_off. split; [exact E'|].
      split; [now rewrite P1, replies_app | reflexivity].
    - destruct (interpret_ok st (Z.of_nat cmd) "w"%char st2 _ _ _ _ Hload E P)
        as (st' & E' & P1 & _).
      exists st', (text_w_on (clamp 0 255 (atoi tok))). split; [exact E'|].
      split; [now rewrite P1, replies_app|].
      rewrite text_w_on_no_error by apply clamp_range. reflexivity.
    - destruct (interpret_ok st (Z.of_nat cmd) "w"%char st2 _ _ _ _ Hload E P)
        as (st' & E' & P1 & _).
      exists st', text_w_error. split; [exact E'|].
      split; [now rewrite P1, replies_app | reflexivity]. }
  destruct (interpret_unknown st (Z.of_nat cmd) c Hb Hload Hnul Hv HL Ha Hw)
    as (st' & E' & P1).
  exists st', (text_default c). split; [exact E'|].
  split; [now rewrite P1, replies_app|].
  rewrite text_default_has_error. unfold is_failure.
  now rewrite mem_char_commands.
Qed.

Lemma error_word_marks_failures_witness :
  exists st' reply,
    interpret_RS485_command
      (set_bufA (reset_state (fun _ => 0)) (line_buffer (chars "/Nw , ")))
      2 = Some st' /\
    replies (calls st') = [reply] /\
    contains (chars "error") reply = true.
Proof.
  apply (error_word_marks_failures
           (set_bufA (reset_state (fun _ => 0)) (line_buffer (chars "/Nw , ")))
           2 "w"%char (chars " , "));
    reflexivity.
Defined.

(** X8.  Only an ['L'] command changes the LED state.  From a state where
    the LED follows the override flag, a call on any payload that does not
    begin with ['L'] returns with the LED and the override flag as they
    were: the activity indication is switched back, and a LED turned on by
    command stays on. *)
Theorem only_L_changes_the_led
  (st : state) (cmdStr : Z) (c : ascii) (tail : list ascii) :
  length (bufB st) = Z.to_nat NBUFB ->
  led_inv st ->
  c_str_at (bufA st) cmdStr = Some (c :: tail) ->
  c <> "L"%char ->
  exists st',
    interpret_RS485_command st cmdStr = Some st' /\
    GREENLED st' = GREENLED st /\
    override_led st' = override_led st.
Proof.
  intros Hb Hinv Hstr HL.
  destruct (interpret_setup st cmdStr c tail Hb Hstr)
    as (cmd & -> & Hload & Hb1 & Htail & Hnul).
  assert (Hq : forall st2 cs v,
             dispatch (activity_led st 1) (Z.of_nat cmd) c = Some st2 ->
             post (activity_led st 1) st2 cs (GREENLED (activity_led st 1))
               (override_led (activity_led st 1)) v ->
             exists st', interpret_RS485_command st (Z.of_nat cmd) = Some st' /\
               GREENLED st' = GREENLED st /\ override_led st' = override_led st).
  { intros st2 cs v E P.
    destruct (interpret_quiet st _ c st2 cs v Hinv Hload E P)
      as (st' & E' & _ & P2 & P3 & _).
    now exists st'. }
  destruct (Ascii.eqb_spec c "v") as [->|Hv].
  { destruct (case_v_ok _ Hb1) as (st2 & E & P). exact (Hq _ _ _ E P). }
  destruct (Ascii.eqb_spec c "a") as [->|Ha].
  { destruct (case_a_ok _ Hb1) as (st2 & p8 & p2 & p4 & p5 & p6 & E & P & _).
    exact (Hq _ _ _ E P). }
  destruct (Ascii.eqb_spec c "w") as [->|Hw].
  { destruct (case_w_ok _ cmd tail Hb1 Htail) as (st2 & E & P).
    destruct (first_token tail) as [tok|];
      [destruct (onOffFlag_of tail =? 0)|]; exact (Hq _ _ _ E P). }
  destruct (case_default_ok _ c Hb1 Hnul) as (st2 & E & P).
  eapply Hq; [|exact P].
  unfold dispatch. apply Ascii.eqb_neq in Hv, HL, Ha, Hw.
  now rewrite Hv, HL, Ha, Hw.
Qed.

Lemma only_L_changes_the_led_witness :
  exists st',
    interpret_RS485_command
      (set_override_led
         (set_GREENLED
            (set_bufA (reset_state (fun _ => 0)) (line_buffer (chars "/Na")))
            1) 1)
      2 = Some st' /\
    GREENLED st' = 1 /\ override_led st' = 1.
Proof.
  apply (only_L_changes_the_led
           (set_override_led
              (set_GREENLED
                 (set_bufA (reset_state (fun _ => 0))
                    (line_buffer (chars "/Na"))) 1) 1)
           2 "a"%char []);
    first [reflexivity | discriminate].
Defined.

(** X9.  An ['L'] command with an argument uses its least significant bit
    only: the LED and the override flag both become the converted value
    modulo 2, whatever they were, and the reply reports that bit. *)
Theorem L_uses_the_lowest_bit
  (st : state) (cmdStr : Z) (tail tok : list ascii) :
  length (bufB st) = Z.to_nat NBUFB ->
  c_str_at (bufA st) cmdStr = Some ("L"%char :: tail) ->
  first_token tail = Some tok ->
  exists st',
    interpret_RS485_command st cmdStr = Some st' /\
    GREENLED st' = atoi tok mod 2 /\
    override_led st' = atoi tok mod 2 /\
    calls st' = calls st ++
      [Call_uart1_putstr
         (chars "/0L " ++ fmt_d (atoi tok mod 2) ++ chars "#" ++ [LF])].
Proof.
  intros Hb Hstr Htok.
  destruct (interpret_setup st cmdStr _ tail Hb Hstr)
    as (cmd & -> & Hload & Hb1 & Htail & _).
  destruct (case_L_ok _ cmd tail Hb1 Htail) as (st2 & E & P).
  rewrite Htok, land_1_mod in P.
  destruct (interpret_ok st (Z.of_nat cmd) "L"%char st2 _ _ _ _ Hload E P)
    as (st' & E' & P1 & P2 & P3 & _).
  exists st'. split; [exact E'|]. split; [|split; [exact P3 | exact P1]].
  rewrite P2. destruct (Z.eqb_spec (atoi tok mod 2) 0); congruence.
Qed.

Lemma L_uses_the_lowest_bit_witness :
  exists st',
    interpret_RS485_command
      (set_bufA (reset_state (fun _ => 0)) (line_buffer (chars "/NL,7")))
      2 = Some st' /\
    GREENLED st' = atoi (chars "7") mod 2 /\
    override_led st' = atoi (chars "7") mod 2 /\
    calls st' = calls (set_bufA (reset_state (fun _ => 0))
                         (line_buffer (chars "/NL,7"))) ++
      [Call_uart1_putstr
         (chars "/0L " ++ fmt_d (atoi (chars "7") mod 2) ++ chars "#" ++ [LF])].
Proof.
  apply (L_uses_the_lowest_bit
           (set_bufA (reset_state (fun _ => 0)) (line_buffer (chars "/NL,7")))
           2 (chars ",7") (chars "7"));
    reflexivity.
Defined.

(** X10.  A ['w'] command whose on/off flag converts to zero switches the
    reference off and ignores the level: [set_VREF_off] is the only
    peripheral call, the DAC and the amplifier are disabled, the level
    register keeps its value, and the reply is ["/0w VREF off#\n"]. *)
Theorem w_flag_zero_switches_off
  (st : state) (cmdStr : Z) (tail tok : list ascii) :
  length (bufB st) = Z.to_nat NBUFB ->
  c_str_at (bufA st) cmdStr = Some ("w"%char :: tail) ->
  first_token tail = Some tok ->
  onOffFlag_of tail = 0 ->
  exists st',
    interpret_RS485_command st cmdStr = Some st' /\
    calls st' = calls st ++
      [Call_set_VREF_off; Call_uart1_putstr (chars "/0w VREF off#" ++ [LF])] /\
    DAC1CON_EN (vref st') = 0 /\
    OPA1CON0_EN (vref st') = 0 /\
    DAC1DATL (vref st') = DAC1DATL (vref st).
Proof.
  intros Hb Hstr Htok Hflag.
  destruct (interpret_setup st cmdStr _ tail Hb Hstr)
    as (cmd & -> & Hload & Hb1 & Htail & _).
  destruct (case_w_ok _ cmd tail Hb1 Htail) as (st2 & E & P).
  rewrite Htok, Hflag in P. cbv iota in P. change (0 =? 0) with true in P.
  cbv iota in P.
  destruct (interpret_ok st (Z.of_nat cmd) "w"%char st2 _ _ _ _ Hload E P)
    as (st' & E' & P1 & _ & _ & P4 & _).
  exists st'. split; [exact E'|]. split; [exact P1|].
  rewrite P4. cbn [vref set_VREF_off log_call set_vref DAC1CON_EN
                   OPA1CON0_EN DAC1DATL].
  destruct (activity_led_post st 1) as (_ & _ & _ & J4 & _).
  now rewrite J4.
Qed.

Lemma w_flag_zero_switches_off_witness :
  exists st',
    interpret_RS485_command
      (set_VREF_on
         (set_bufA (reset_state (fun _ => 0)) (line_buffer (chars "/Nw 9 0")))
         200)
      2 = Some st' /\
    calls st' =
      [Call_set_VREF_on 200; Call_set_VREF_off;
       Call_uart1_putstr (chars "/0w VREF off#" ++ [LF])] /\
    DAC1CON_EN (vref st') = 0 /\
    OPA1CON0_EN (vref st') = 0 /\
    DAC1DATL (vref st') = 200.
Proof.
  apply (w_flag_zero_switches_off
           (set_VREF_on
              (set_bufA (reset_state (fun _ => 0))
                 (line_buffer (chars "/Nw 9 0"))) 200)
           2 (chars " 9 0") (chars "9"));
    reflexivity.
Defined.

(** X11.  The version command takes no argument and depends on no state:
    whatever follows the ['v'] and whatever the device state, the one reply
    sent is the fixed version text, so the same command sent twice is
    answered with the same bytes. *)
Theorem v_reply_is_constant (st : state) (cmdStr : Z) (tail : list ascii) :
  length (bufB st) = Z.to_nat NBUFB ->
  c_str_at (bufA st) cmdStr = Some ("v"%char :: tail) ->
  exists st',
    interpret_RS485_command st cmdStr = Some st' /\
    calls st' = calls st ++
      [Call_uart1_putstr
         (chars "/0v 0.1 PIC18F16Q41 NPP-301 Characterizer#" ++ [LF])] /\
    vref st' = vref st /\
    override_led st' = override_led st.
Proof.
  intros Hb Hstr.
  destruct (interpret_setup st cmdStr _ tail Hb Hstr)
    as (cmd & -> & Hload & Hb1 & _ & _).
  destruct (case_v_ok _ Hb1) as (st2 & E & P).
  destruct (interpret_ok st (Z.of_nat cmd) "v"%char st2 _ _ _ _ Hload E P)
    as (st' & E' & P1 & _ & P3 & P4 & _).
  destruct (activity_led_post st 1) as (_ & _ & J3 & J4 & _).
  exists st'. split; [exact E'|]. split; [exact P1|].
  split; congruence.
Qed.

Lemma v_reply_is_constant_witness :
  exists st',
    interpret_RS485_command
      (set_bufA (reset_state (fun _ => 0)) (line_buffer (chars "/Nv 1,2")))
      2 = Some st' /\
    calls st' =
      [Call_uart1_putstr
         (chars "/0v 0.1 PIC18F16Q41 NPP-301 Characterizer#" ++ [LF])] /\
    vref st' = vref (reset_state (fun _ => 0)) /\
    override_led st' = 0.
Proof.
  apply (v_reply_is_constant
           (set_bufA (reset_state (fun _ => 0)) (line_buffer (chars "/Nv 1,2")))
           2 (chars " 1,2"));
    reflexivity.
Defined.

(** X12.  The ['a'] command makes exactly five conversions, on the
    channels ANC2, ANC7, ANB7, ANB6, ANB5 in this order, and its reply
    lists the five results as delivered, as 16-bit unsigned numbers, in the
    order of the conversions; the reply is never cut short. *)
Theorem a_reports_five_conversions
  (st : state) (cmdStr : Z) (tail : list ascii) :
  length (bufB st) = Z.to_nat NBUFB ->
  c_str_at (bufA st) cmdStr = Some ("a"%char :: tail) ->
  let v := fun i => wrap_unsigned 16 (ADRES_feed st (conversions st + i)%nat) in
  exists st',
    interpret_RS485_command st cmdStr = Some st' /\
    calls st' = calls st ++
      [Call_ADC_read MY_ANC2; Call_ADC_read MY_ANC7; Call_ADC_read MY_ANB7;
       Call_ADC_read MY_ANB6; Call_ADC_read MY_ANB5;
       Call_uart1_putstr
         (chars "/0a " ++ fmt_u (v 0%nat) ++ chars " " ++ fmt_u (v 1%nat) ++
          chars " " ++ fmt_u (v 2%nat) ++ chars " " ++ fmt_u (v 3%nat) ++
          chars " " ++ fmt_u (v 4%nat) ++ chars "#" ++ [LF])] /\
    conversions st' = (conversions st + 5)%nat /\
    ADPCH st' = MY_ANB5.
Proof.
  intros Hb Hstr v.
  destruct (interpret_setup st cmdStr _ tail Hb Hstr)
    as (cmd & -> & Hload & Hb1 & _ & _).
  unfold interpret_RS485_command. cbv zeta.
  rewrite activity_led_bufA, Hload.
  change (dispatch (activity_led st 1) (Z.of_nat cmd) "a")
    with (case_a (activity_led st 1)).
  unfold case_a, ADC_read. st_simpl.
  rewrite activity_led_conversions, activity_led_feed.
  subst v. cbv beta. rewrite Nat.add_0_r.
  replace (conversions st + 1)%nat with (S (conversions st)) by lia.
  replace (conversions st + 2)%nat with (S (S (conversions st))) by lia.
  replace (conversions st + 3)%nat with (S (S (S (conversions st)))) by lia.
  replace (conversions st + 4)%nat
    with (S (S (S (S (conversions st))))) by lia.
  match goal with
  | |- context [snprintf_bufB _ ?t] => set (text := t)
  end.
  rewrite emit_ok by (st_simpl; exact Hb1).
  assert (Hs : sent text = text)
    by (apply sent_text_a; apply (wrap_unsigned_range 16); lia).
  rewrite Hs.
  eexists. split; [reflexivity|].
  rewrite activity_led_calls, activity_led_conversions, activity_led_ADPCH.
  st_simpl. rewrite activity_led_calls, activity_led_conversions, <- !app_assoc.
  split; [reflexivity|]. split; [lia | reflexivity].
Qed.

Lemma a_reports_five_conversions_witness :
  exists st',
    interpret_RS485_command
      (set_bufA (reset_state (fun k => 4000 + Z.of_nat k))
         (line_buffer (chars "/Na")))
      2 = Some st' /\
    calls st' =
      [Call_ADC_read MY_ANC2; Call_ADC_read MY_ANC7; Call_ADC_read MY_ANB7;
       Call_ADC_read MY_ANB6; Call_ADC_read MY_ANB5;
       Call_uart1_putstr (chars "/0a 4000 4001 4002 4003 4004#" ++ [LF])] /\
    conversions st' = 5%nat /\
    ADPCH st' = MY_ANB5.
Proof.
  apply (a_reports_five_conversions
           (set_bufA (reset_state (fun k => 4000 + Z.of_nat k))
              (line_buffer (chars "/Na")))
           2 []);
    reflexivity.
Defined.

(** ** The polling loop *)

Section LoopFurther.

Implicit Types (line : buffer) (st : state).

Lemma poll_iteration_replies st m line :
  length line = 80%nat ->
  length (bufB st) = 268%nat ->
  exists st' new,
    poll_iteration st m line = Some st' /\
    replies (calls st') = replies (calls st) ++ new /\
    length new = (if answerable (m, line) then 1 else 0)%nat /\
    Forall (fun r => framedb r = true) new /\
    length (bufB st') = 268%nat.
Proof.
  intros Hl Hb. unfold answerable. cbn [fst snd].
  destruct (spec_extract line 80) as [[|c s]|] eqn:Hspec.
  - destruct (poll_discard st m line Hl (or_intror Hspec))
      as (st' & E & Hc & _ & _ & _ & _ & H6).
    exists st', []. rewrite andb_false_r, app_nil_r, Hc, H6. now repeat split.
  - destruct (Z.gtb_spec m 0) as [Hm|Hm].
    + destruct (poll_reply st m line c s ltac:(lia) Hl Hb Hspec)
        as (st' & cs & reply & E & Hc & Hr & Hf & _ & H6 & _).
      exists st', [reply]. rewrite Hc, replies_app, Hr.
      repeat split; try assumption.
      constructor; [now apply framed_framedb | constructor].
    + exists (set_bufA st line), []. unfold poll_iteration.
      destruct (Z.gtb_spec m 0); [lia|]. rewrite app_nil_r. now repeat split.
  - destruct (poll_discard st m line Hl (or_introl Hspec))
      as (st' & E & Hc & _ & _ & _ & _ & H6).
    exists st', []. rewrite andb_false_r, app_nil_r, Hc, H6. now repeat split.
Qed.

End LoopFurther.

(** X13.  The node answers only when spoken to, once per command: over any
    sequence of received lines the loop runs without a fault, and the
    replies it adds are as many as the lines that were reported with a
    positive count and hold a frame for this node with a payload; each of
    them begins with ["/0"] and ends with ["#\n"]. *)
Theorem one_reply_per_answerable_line (st : state) (rx : list (Z * buffer)) :
  length (bufB st) = Z.to_nat NBUFB ->
  Forall (fun r => length (snd r) = Z.to_nat NBUFA) rx ->
  exists st' new,
    poll_loop st rx = Some st' /\
    replies (calls st') = replies (calls st) ++ new /\
    length new = length (filter answerable rx) /\
    Forall (fun r => framedb r = true) new.
Proof.
  revert st. induction rx as [|[m line] rx IH]; intros st Hb Hrx.
  - exists st, []. rewrite app_nil_r. now repeat split.
  - inversion Hrx as [|? ? Hl Hrx']; subst. cbn [snd] in Hl.
    destruct (poll_iteration_replies st m line Hl Hb)
      as (st1 & new1 & E & Hr1 & Hn1 & Hf1 & Hb1).
    destruct (IH st1 Hb1 Hrx') as (st' & new2 & E2 & Hr2 & Hn2 & Hf2).
    exists st', (new1 ++ new2). cbn [poll_loop filter]. rewrite E.
    split; [exact E2|]. split; [now rewrite Hr2, Hr1, app_assoc|].
    split; [|now apply Forall_app].
    rewrite length_app, Hn1, Hn2.
    destruct (answerable (m, line)); reflexivity.
Qed.

Lemma one_reply_per_answerable_line_witness :
  exists st' new,
    poll_loop (reset_state (fun _ => 0))
      [(4, line_buffer (chars "/Nv!")); (4, line_buffer (chars "/Xv!"));
       (3, line_buffer (chars "/N!")); (0, line_buffer (chars "/Nv!"));
       (5, line_buffer (chars "/NL1!"))] = Some st' /\
    replies (calls st') = replies (calls (reset_state (fun _ => 0))) ++ new /\
    length new = 2%nat /\
    Forall (fun r => framedb r = true) new.
Proof.
  apply (one_reply_per_answerable_line (reset_state (fun _ => 0))
           [(4, line_buffer (chars "/Nv!")); (4, line_buffer (chars "/Xv!"));
            (3, line_buffer (chars "/N!")); (0, line_buffer (chars "/Nv!"));
            (5, line_buffer (chars "/NL1!"))]);
    [reflexivity | repeat constructor].
Defined.

(** X14.  Every level of the DAC can be set over the bus.  For each [n]
    from 0 to 255, the line ["/Nw "], [n] in decimal, ["!"] makes the loop
    body call [set_VREF_on] with [n], leave [n] in the level register with
    the DAC and the amplifier enabled, and reply with the same number. *)
Theorem w_sets_every_byte_level (st : state) (m n : Z) :
  length (bufB st) = Z.to_nat NBUFB ->
  0 < m ->
  0 <= n <= 255 ->
  exists st',
    poll_iteration st m (line_buffer (chars "/Nw " ++ fmt_d n ++ chars "!"))
      = Some st' /\
    calls st' = calls st ++
      [Call_set_VREF_on n;
       Call_uart1_putstr
         (chars "/0w VREF on level=" ++ fmt_d n ++ chars "#" ++ [LF])] /\
    DAC1DATL (vref st') = n /\
    DAC1CON_EN (vref st') = 1 /\
    OPA1CON0_EN (vref st') = 1.
Proof.
  intros Hb Hm Hn.
  set (tail := fun z => " "%char :: fmt_d z).
  set (line := fun z => line_buffer (chars "/Nw " ++ fmt_d z ++ chars "!")).
  set (check := fun z =>
            Nat.eqb (length (line z)) 80 &&
            match spec_extract (line z) 80 with
            | Some a => if list_eq_dec ascii_dec a ("w"%char :: tail z)
                        then true else false
            | None => false
            end &&
            match first_token (tail z) with
            | Some t => if list_eq_dec ascii_dec t (fmt_d z)
                        then true else false
            | None => false
            end &&
            (onOffFlag_of (tail z) =? 1) &&
            (clamp 0 255 (atoi (fmt_d z)) =? z)).
  assert (Hall : check n = true)
    by (apply (forall_byte check); [vm_compute; reflexivity | exact Hn]).
  unfold check in Hall. clear check.
  apply andb_true_iff in Hall. destruct Hall as [Hall Hclamp].
  apply andb_true_iff in Hall. destruct Hall as [Hall Hflag].
  apply andb_true_iff in Hall. destruct Hall as [Hall Htok].
  apply andb_true_iff in Hall. destruct Hall as [Hlen Hspec].
  apply Nat.eqb_eq in Hlen. apply Z.eqb_eq in Hflag, Hclamp.
  destruct (spec_extract (line n) 80) as [a|] eqn:Es; [|discriminate].
  destruct (list_eq_dec ascii_dec a ("w"%char :: tail n)) as [->|];
    [|discriminate]. clear Hspec.
  destruct (first_token (tail n)) as [t|] eqn:Et; [|discriminate].
  destruct (list_eq_dec ascii_dec t (fmt_d n)) as [->|]; [|discriminate].
  clear Htok.
  destruct (poll_frame st m (line n) "w"%char (tail n) Hm Hlen Es)
    as (buf' & cmd & E & Hat & _).
  fold (line n). rewrite E.
  assert (Hload : load (bufA (set_bufA st buf')) (Z.of_nat cmd) = Some "w"%char)
    by apply (cstr_at_load _ _ _ Hat).
  assert (Hb1 : length (bufB (activity_led (set_bufA st buf') 1)) = 268%nat)
    by (rewrite activity_led_bufB; exact Hb).
  assert (Htail : cstr_at (bufA (activity_led (set_bufA st buf') 1)) (S cmd)
                    (tail n))
    by (rewrite activity_led_bufA; now apply (cstr_at_tail _ _ "w"%char)).
  destruct (case_w_ok _ cmd (tail n) Hb1 Htail) as (st2 & E2 & P).
  rewrite Et, Hflag, Hclamp in P. change (1 =? 0) with false in P.
  cbv iota in P.
  destruct (interpret_ok (set_bufA st buf') (Z.of_nat cmd) "w"%char st2
              _ _ _ _ Hload E2 P)
    as (st' & E' & P1 & _ & _ & P4 & _).
  exists st'. split; [exact E'|]. split; [exact P1|].
  rewrite P4. now repeat split.
Qed.

Lemma w_sets_every_byte_level_witness :
  exists st',
    poll_iteration (reset_state (fun _ => 0)) 7
      (line_buffer (chars "/Nw " ++ fmt_d 128 ++ chars "!")) = Some st' /\
    calls st' = calls (reset_state (fun _ => 0)) ++
      [Call_set_VREF_on 128;
       Call_uart1_putstr
         (chars "/0w VREF on level=" ++ fmt_d 128 ++ chars "#" ++ [LF])] /\
    DAC1DATL (vref st') = 128 /\
    DAC1CON_EN (vref st') = 1 /\
    OPA1CON0_EN (vref st') = 1.
Proof.
  apply (w_sets_every_byte_level (reset_state (fun _ => 0)) 7 128);
    [reflexivity | lia | lia].
Defined.
